(** * NeoBlogger: a shallow embedding of [blogger.js]

    The development follows the source file top to bottom: the JSON fetcher,
    the comparator factory [postSorter], the classes [BlogPost],
    [BlogPostMeta] and [BlogPostMetaList], the HTML renderers and the two
    page assembly functions.

    Conventions.
    - JavaScript strings are modelled by [string] (sequences of 8-bit code
      units); [<] on strings is the code-unit lexicographic order, which is
      [String.compare].
    - Numbers are the integers that occur in this program (time values of
      dates, lengths, indices) plus [NaN].
    - Exceptions are explicit: fallible code returns a [result].
    - Arrays are mutable objects: they live in a store and are passed around
      by location, so that an in-place update is seen by every holder.
    - Built-ins whose outcome depends on the engine or on the time zone
      (number and date parsing, date formatting, [JSON.stringify], the order
      that [sort] gives with an inconsistent comparator) are the fields of
      the class [Platform].  The general theorems hold for every platform;
      the closed examples run on the platform [Utc.platform].
    - [console.log] and [console.debug] have no effect on any result and are
      left out.
    - An optional parameter is an ordinary parameter; a call that relies on
      the default passes the default.
    - The documents considered carry their [title], [author] and [path] as
      text; [created] and [updated] are arbitrary values; [tags] and
      [content], whose absence makes the program throw, may be absent. *)

From Stdlib Require Import ZArith Lia Bool Ascii String Permutation Sorted OrderedTypeEx.
From stdpp Require Import base gmap strings list fin_maps pretty.

(** ** Exceptions *)

Inductive error : Type :=
| TypeError      (* property access or call on a value that does not support it *)
| FetchError     (* the request failed or the body is not JSON *)
| PlatformError. (* raised by a built-in of the platform *)

Inductive result (A : Type) : Type :=
| Ok (a : A)
| Throw (e : error).
Arguments Ok {A} a.
Arguments Throw {A} e.

#[export] Instance result_ret : MRet result := fun _ a => Ok a.
#[export] Instance result_bind : MBind result := fun _ _ k r =>
  match r with
  | Ok a => k a
  | Throw e => Throw e
  end.

(** [try { body } catch { return v }] *)
Definition try_catch {A} (body : result A) (v : A) : result A :=
  match body with
  | Ok a => Ok a
  | Throw _ => Ok v
  end.

(** ** Values *)

Inductive jsval : Type :=
| JUndefined
| JNull
| JBool (b : bool)
| JNum (n : Z)
| JNaN
| JStr (s : string)
| JDate (t : option Z)        (* a Date object; [None] is the NaN time value *)
| JArr (l : list string).     (* an array of strings, as produced by [split] *)

(** ** Array.prototype.sort

    The language fixes the result of [sort] only for a consistent
    comparator: then the elements come back in comparator order, and
    elements that tie keep their order (the sort is stable).  [Array_sort],
    insertion from the right, computes that result.  For any other
    comparator the order is left to the engine; see [engine_sort] in the
    class [Platform]. *)
Section ArraySort.
Context {A : Type} (comparefn : A -> A -> Z).

Fixpoint sort_insert (x : A) (l : list A) : list A :=
  match l with
  | [] => [x]
  | y :: l' => if (comparefn x y <=? 0)%Z then x :: y :: l' else y :: sort_insert x l'
  end.

Definition Array_sort (l : list A) : list A := foldr sort_insert [] l.

(** A consistent comparator for the elements of [l], as the language
    defines it: every element ties with itself, ties are symmetric and
    transitive, "before" and "after" are transitive; and [y] is after [x]
    exactly when [x] is before [y], which follows from the rest and is
    spelt out. *)
Definition consistent (l : list A) : Prop :=
  forall x y z, x ∈ l -> y ∈ l -> z ∈ l ->
    comparefn x x = 0%Z /\
    ((comparefn x y < 0)%Z <-> (0 < comparefn y x)%Z) /\
    (comparefn x y = 0%Z -> comparefn y x = 0%Z) /\
    (comparefn x y = 0%Z -> comparefn y z = 0%Z -> comparefn x z = 0%Z) /\
    ((comparefn x y < 0)%Z -> (comparefn y z < 0)%Z -> (comparefn x z < 0)%Z) /\
    ((0 < comparefn x y)%Z -> (0 < comparefn y z)%Z -> (0 < comparefn x z)%Z).

End ArraySort.

(** The built-ins that the language leaves to the engine and its locale. *)
Class Platform : Type := {
  (* ToNumber on a string; [None] is NaN *)
  StringToNumber : string -> option Z;
  (* the time value of [new Date(v)]; [None] is NaN (Invalid Date) *)
  Date_new : jsval -> option Z;
  (* [d.toLocaleString('en-US', {month:'long', day:'numeric', year:'numeric'})] *)
  toLocaleString : option Z -> string;
  (* [JSON.stringify(v)]: a string, [undefined], or an exception *)
  JSON_stringify : jsval -> result (option string);
  (* [l.sort(comparefn)]: always a rearrangement of [l]; the result that the
     language prescribes when [comparefn] is consistent for [l], and an
     order of the engine's choice otherwise *)
  engine_sort : forall A : Type, (A -> A -> Z) -> list A -> list A;
  engine_sort_perm : forall (A : Type) (comparefn : A -> A -> Z) (l : list A),
    engine_sort A comparefn l ≡ₚ l;
  engine_sort_consistent : forall (A : Type) (comparefn : A -> A -> Z) (l : list A),
    consistent comparefn l -> engine_sort A comparefn l = Array_sort comparefn l
}.
Arguments engine_sort {_ A} comparefn l.
Arguments engine_sort_perm {_ A} comparefn l.
Arguments engine_sort_consistent {_ A} comparefn l.

(** ** String built-ins used by the program *)

Module Str.

Definition space : ascii := Ascii.ascii_of_nat 32.
Definition newline : ascii := Ascii.ascii_of_nat 10.
Definition comma : ascii := Ascii.ascii_of_nat 44.

(** [l.join(sep)] *)
Fixpoint join (sep : string) (l : list string) : string :=
  match l with
  | [] => ""
  | [s] => s
  | s :: l' => s +:+ sep +:+ join sep l'
  end.

(** [s.split(',')]: the pieces between the commas; never the empty list. *)
Fixpoint split_comma (s : string) : list string :=
  match s with
  | EmptyString => [""]
  | String c s' =>
      if Ascii.eqb c comma then "" :: split_comma s'
      else match split_comma s' with
           | [] => [String c ""]
           | w :: ws => String c w :: ws
           end
  end.

(** [s.substr(0, len)]: a negative length gives the empty string, a length
    past the end gives the whole string. *)
Definition substr0 (s : string) (len : Z) : string :=
  if (len <=? 0)%Z then "" else String.substring 0 (Z.to_nat len) s.

(** [s.lastIndexOf(" ")]: the index of the last space, or -1. *)
Fixpoint lastIndexOf_space_from (i : Z) (s : string) (found : Z) : Z :=
  match s with
  | EmptyString => found
  | String c s' =>
      lastIndexOf_space_from (i + 1) s' (if Ascii.eqb c space then i else found)
  end.
Definition lastIndexOf_space (s : string) : Z := lastIndexOf_space_from 0 s (-1).

(** [s.replace(pat, rep)] with a string pattern: only the first occurrence
    is replaced. *)
Fixpoint replace_first (pat rep s : string) : string :=
  if String.prefix pat s then rep +:+ String.substring (String.length pat) (String.length s) s
  else match s with
       | EmptyString => ""
       | String c s' => String c (replace_first pat rep s')
       end.

(** [s.replace(/\n/g, rep)]: every newline is replaced. *)
Fixpoint replace_newlines (rep s : string) : string :=
  match s with
  | EmptyString => ""
  | String c s' =>
      if Ascii.eqb c newline then rep +:+ replace_newlines rep s'
      else String c (replace_newlines rep s')
  end.

End Str.

(** ** Relational operators *)

Section Relational.
Context `{Platform}.

(** ToPrimitive with hint number: a Date gives its time value, an array
    its [toString()], which is [join(",")]. *)
Definition ToPrimitive (v : jsval) : jsval :=
  match v with
  | JDate (Some t) => JNum t
  | JDate None => JNaN
  | JArr l => JStr (Str.join "," l)
  | _ => v
  end.

Definition ToNumber (v : jsval) : option Z :=
  match v with
  | JUndefined => None
  | JNull => Some 0%Z
  | JBool b => Some (if b then 1 else 0)%Z
  | JNum n => Some n
  | JNaN => None
  | JStr s => StringToNumber s
  | JDate t => t
  | JArr l => StringToNumber (Str.join "," l)
  end.

(** [x < y]: two strings are compared by code units, anything else as
    numbers; a comparison with NaN is false. *)
Definition js_lt (x y : jsval) : bool :=
  match ToPrimitive x, ToPrimitive y with
  | JStr s, JStr t => String.ltb s t
  | px, py =>
      match ToNumber px, ToNumber py with
      | Some a, Some b => (a <? b)%Z
      | _, _ => false
      end
  end.

(** [x > y] is the same comparison with the operands exchanged. *)
Definition js_gt (x y : jsval) : bool := js_lt y x.

End Relational.

(** ** postSorter *)

(** [a[property]] for the objects that the comparator is applied to. *)
Class HasProps (A : Type) : Type := get_prop : A -> string -> jsval.

Section PostSorter.
Context `{Platform} {A : Type} `{HasProps A}.

Definition postSorter (property : string) (reversed : bool) : A -> A -> Z :=
  if reversed then
    fun a b =>
      if js_lt (get_prop a property) (get_prop b property) then 1%Z
      else if js_gt (get_prop a property) (get_prop b property) then (-1)%Z
      else 0%Z
  else
    fun a b =>
      if js_gt (get_prop a property) (get_prop b property) then 1%Z
      else if js_lt (get_prop a property) (get_prop b property) then (-1)%Z
      else 0%Z.

End PostSorter.

(** A plain object: a finite map from property names to values; a missing
    property reads as [undefined]. *)
#[export] Instance obj_props : HasProps (gmap string jsval) :=
  fun o p => default JUndefined (o !! p).

(** ** Documents and the JSON fetcher *)

(** One entry of the [posts] array of a metadata document.  [tags] may be
    absent. *)
Record MetaEntry : Type := {
  me_title : string;
  me_path : string;
  me_created : jsval;
  me_updated : jsval;
  me_tags : option string
}.

(** A post document.  [tags] and [content] may be absent. *)
Record PostData : Type := {
  pd_title : string;
  pd_created : jsval;
  pd_updated : jsval;
  pd_author : string;
  pd_tags : option string;
  pd_content : option string
}.

Inductive json : Type :=
| MetaDoc (posts : list MetaEntry)
| PostDoc (data : PostData).

(** The files that can be fetched, by path. *)
Abbreviation files := (gmap string json).

Definition getJsonData (fs : files) (path : string) : result json :=
  match fs !! path with
  | Some data => Ok data
  | None => Throw FetchError
  end.

(** [data['tags'].split(',')] *)
Definition split_tags (tags : option string) : result (list string) :=
  match tags with
  | Some s => Ok (Str.split_comma s)
  | None => Throw TypeError
  end.

(** ** class BlogPost *)

Module BlogPost.

Record t : Type := {
  title : string;
  created : option Z;     (* time value of the Date *)
  updated : option Z;
  author : string;
  tags : list string;
  content : option string  (* [None] is [undefined] *)
}.

Definition constructor `{Platform} (data : json) : result t :=
  match data with
  | PostDoc d =>
      tags ← split_tags (pd_tags d);
      Ok {| title := pd_title d;
            created := Date_new (pd_created d);
            updated := Date_new (pd_updated d);
            author := pd_author d;
            tags := tags;
            content := pd_content d |}
  | MetaDoc _ => Throw TypeError   (* no [tags] to split *)
  end.

(** The argument of [equals] is an arbitrary value: a primitive, a Date or
    an array (none of which has the accessors), or an object, given by
    what each accessor does when called: absent, throwing, or returning. *)
Record object : Type := {
  getTitle : option (result jsval);
  getCreated : option (result jsval);
  getUpdated : option (result jsval);
  getAuthor : option (result jsval);
  getTags : option (result jsval);
  getContent : option (result jsval)
}.

Inductive arg : Type :=
| ArgVal (v : jsval)
| ArgObj (o : object).

(** The value of a text field that may be absent. *)
Definition text_value (c : option string) : jsval :=
  match c with
  | Some s => JStr s
  | None => JUndefined
  end.

(** A BlogPost seen as an argument. *)
Definition as_object (p : t) : object :=
  {| getTitle := Some (Ok (JStr (title p)));
     getCreated := Some (Ok (JDate (created p)));
     getUpdated := Some (Ok (JDate (updated p)));
     getAuthor := Some (Ok (JStr (author p)));
     getTags := Some (Ok (JArr (tags p)));
     getContent := Some (Ok (text_value (content p))) |}.

(** [obj.m()] *)
Definition call (m : object -> option (result jsval)) (obj : arg) : result jsval :=
  match obj with
  | ArgVal _ => Throw TypeError
  | ArgObj o =>
      match m o with
      | Some r => r
      | None => Throw TypeError
      end
  end.

(** [v.valueOf()] *)
Definition valueOf (v : jsval) : result jsval :=
  match v with
  | JUndefined | JNull => Throw TypeError
  | JDate (Some t) => Ok (JNum t)
  | JDate None => Ok JNaN
  | _ => Ok v
  end.

(** [x === y] where one side is a primitive. *)
Definition strict_eq (x y : jsval) : bool :=
  match x, y with
  | JUndefined, JUndefined => true
  | JNull, JNull => true
  | JBool a, JBool b => Bool.eqb a b
  | JNum a, JNum b => (a =? b)%Z
  | JStr a, JStr b => String.eqb a b
  | _, _ => false
  end.

(** [x === y] on the results of [JSON.stringify] *)
Definition strict_eq_opt (x y : option string) : bool :=
  match x, y with
  | Some a, Some b => String.eqb a b
  | None, None => true
  | _, _ => false
  end.

(** [b && rest] *)
Definition and_then (b : bool) (rest : result bool) : result bool :=
  if b then rest else Ok false.

Definition time_value (t : option Z) : jsval :=
  match t with
  | Some n => JNum n
  | None => JNaN
  end.

Section Equals.
Context `{Platform}.

(** The expression inside the [try]. *)
Definition equals_body (this : t) (obj : arg) : result bool :=
  ot ← call getTitle obj;
  and_then (strict_eq (JStr (title this)) ot) (
  oc ← call getCreated obj;
  ocv ← valueOf oc;
  and_then (strict_eq (time_value (created this)) ocv) (
  ou ← call getUpdated obj;
  ouv ← valueOf ou;
  and_then (strict_eq (time_value (updated this)) ouv) (
  oa ← call getAuthor obj;
  and_then (strict_eq (JStr (author this)) oa) (
  tj ← JSON_stringify (JArr (tags this));
  og ← call getTags obj;
  oj ← JSON_stringify og;
  and_then (strict_eq_opt tj oj) (
  oc ← call getContent obj;
  Ok (strict_eq (text_value (content this)) oc)))))).

Definition equals (this : t) (obj : arg) : result bool :=
  try_catch (equals_body this obj) false.

End Equals.

End BlogPost.

(** ** class BlogPostMeta *)

Module BlogPostMeta.

Record t : Type := {
  title : string;
  id : string;
  path : string;
  created : jsval;
  updated : jsval;
  tags : list string
}.

Definition constructor (directory : string) (data : MetaEntry) : result t :=
  tags ← split_tags (me_tags data);
  Ok {| title := me_title data;
        id := me_path data;
        path := directory +:+ "/" +:+ me_path data;
        created := me_created data;
        updated := me_updated data;
        tags := tags |}.

(** [m[property]] on the fields of a handle; any other name is taken to be
    absent. *)
#[global] Instance props : HasProps t := fun m property =>
  if String.eqb property "title" then JStr (title m)
  else if String.eqb property "id" then JStr (id m)
  else if String.eqb property "path" then JStr (path m)
  else if String.eqb property "created" then created m
  else if String.eqb property "updated" then updated m
  else if String.eqb property "tags" then JArr (tags m)
  else JUndefined.

Definition getPost `{Platform} (fs : files) (this : t) : result BlogPost.t :=
  data ← getJsonData fs (path this);
  BlogPost.constructor data.

End BlogPostMeta.

(** ** The array store and the monad of the methods of BlogPostMetaList *)

(** An array of handles is an object: the store maps a location to the
    current content of the array at that location. *)
Abbreviation loc := nat.
Abbreviation store := (list (list BlogPostMeta.t)).

Module BlogPostMetaList.

(** What the field [posts] holds:
    - nothing yet (inside the constructor, before the assignment);
    - the promise returned by the call of [init()] in the constructor,
      still pending;
    - that promise, rejected with an error: the call of [init()] has failed
      and has not assigned an array;
    - an array. *)
Inductive posts_field : Type :=
| Unset
| InitPromise
| InitRejected (e : error)
| Arr (l : loc).

Record t : Type := {
  directory : string;
  path : string;
  initialized : bool;
  posts : posts_field
}.

Definition set_initialized (b : bool) (this : t) : t :=
  {| directory := directory this; path := path this;
     initialized := b; posts := posts this |}.

Definition set_posts (p : posts_field) (this : t) : t :=
  {| directory := directory this; path := path this;
     initialized := initialized this; posts := p |}.

(** The state a method runs in: the array store and the receiver. *)
Record state : Type := {
  arrays : store;
  this : t
}.

(** A method either returns or throws, and leaves a state in both cases. *)
Definition M (A : Type) : Type := state -> result A * state.

#[global] Instance M_ret : MRet M := fun _ a σ => (Ok a, σ).
#[global] Instance M_bind : MBind M := fun _ _ k m σ =>
  match m σ with
  | (Ok a, σ') => k a σ'
  | (Throw e, σ') => (Throw e, σ')
  end.

#[global] Instance M_fmap : FMap M := fun _ _ f m σ =>
  match m σ with
  | (Ok a, σ') => (Ok (f a), σ')
  | (Throw e, σ') => (Throw e, σ')
  end.

Definition lift {A} (r : result A) : M A := fun σ => (r, σ).
Definition get_this : M t := fun σ => (Ok (this σ), σ).
Definition modify_this (f : t -> t) : M unit :=
  fun σ => (Ok tt, {| arrays := arrays σ; this := f (this σ) |}).
(** A new array object. *)
Definition alloc (a : list BlogPostMeta.t) : M loc :=
  fun σ => (Ok (length (arrays σ)), {| arrays := arrays σ ++ [a]; this := this σ |}).
(** The content of an array object (every location handed out by [alloc]
    has one). *)
Definition read (l : loc) : M (list BlogPostMeta.t) :=
  fun σ => match arrays σ !! l with
           | Some a => (Ok a, σ)
           | None => (Throw TypeError, σ)
           end.
(** Overwrite the content of an array object, in place. *)
Definition write (l : loc) (a : list BlogPostMeta.t) : M unit :=
  fun σ => (Ok tt, {| arrays := <[l := a]> (arrays σ); this := this σ |}).

(** [data.forEach(post => { metadata[metadata.length] = new BlogPostMeta(this.directory, post) })] *)
Fixpoint forEach_push (directory : string) (data : list MetaEntry)
    (metadata : list BlogPostMeta.t) : result (list BlogPostMeta.t) :=
  match data with
  | [] => Ok metadata
  | post :: data' =>
      m ← BlogPostMeta.constructor directory post;
      forEach_push directory data' (metadata ++ [m])
  end.

Definition convertToMetadataObject (directory : string) (data : list MetaEntry)
    : result (list BlogPostMeta.t) :=
  forEach_push directory data [].

(** [data['posts']] of the fetched document, ready for [forEach]. *)
Definition posts_of (data : json) : result (list MetaEntry) :=
  match data with
  | MetaDoc posts => Ok posts
  | PostDoc _ => Throw TypeError   (* [undefined.forEach] *)
  end.

Section Methods.
Context `{Platform} (fs : files).

(** [init()] up to its [await]: the flag is set, the request is sent and
    the caller gets a promise. *)
Definition init_start : M unit := modify_this (set_initialized true).

(** [init()] from its [await] on, once the request has settled. *)
Definition init_resume : M loc :=
  self ← get_this;
  data ← lift (getJsonData fs (path self));
  entries ← lift (posts_of data);
  metadata ← lift (convertToMetadataObject (directory self) entries);
  l ← alloc metadata;
  _ ← modify_this (set_posts (Arr l));
  mret l.

(** [await this.init()] *)
Definition init : M loc := _ ← init_start; init_resume.

(** [new BlogPostMetaList(file, directory)]: the constructor returns as
    soon as [init()] reaches its [await]. *)
Definition new (file directory : string) (h : store) : state :=
  let self := {| directory := directory;
                 path := directory +:+ file;
                 initialized := false;
                 posts := Unset |} in
  let σ := (init_start {| arrays := h; this := self |}).2 in
  {| arrays := arrays σ; this := set_posts InitPromise (this σ) |}.

(** The promise stored by the constructor settles: the rest of [init()]
    runs; when it fails, the field keeps the promise, now rejected. *)
Definition init_settle : M loc := fun σ =>
  match init_resume σ with
  | (Ok l, σ') => (Ok l, σ')
  | (Throw e, σ') =>
      (Throw e, {| arrays := arrays σ'; this := set_posts (InitRejected e) (this σ') |})
  end.

(** [await this.getPosts()]: the value is an array or [undefined]
    ([None]).  Awaiting the pending promise stored by the constructor waits
    for the rest of [init()]; awaiting it once rejected throws its error
    again, with no new request. *)
Definition getPosts : M (option loc) :=
  self ← get_this;
  if negb (initialized self) then Some <$> init
  else match posts self with
       | Arr l => mret (Some l)
       | InitPromise => Some <$> init_settle
       | InitRejected e => lift (Throw e)
       | Unset => mret None
       end.

(** [(await this.getPosts()).sort(cmp)]: sorts the array where it is
    and returns it. *)
Definition sort_in_place (cmp : BlogPostMeta.t -> BlogPostMeta.t -> Z)
    (target : option loc) : M loc :=
  match target with
  | None => lift (Throw TypeError)
  | Some l =>
      a ← read l;
      _ ← write l (engine_sort cmp a);
      mret l
  end.

Definition getPostsSorted (attr : string) (reverse : bool) : M loc :=
  target ← getPosts;
  sort_in_place (postSorter "created" reverse) target.

Definition getPostsMostRecent : M loc := getPostsSorted "created" false.

End Methods.

End BlogPostMetaList.

(** ** HTML renderers *)

(** The double quote character, for the attribute values of the markup. *)
Definition dq : string := String (Ascii.ascii_of_nat 34) "".

Section Renderers.
Context `{Platform}.

Definition getTitleHtml (post : BlogPost.t) : string :=
  "<h3>" +:+ BlogPost.title post +:+ "</h3>".

(** [<p class="timestamp">] *)
Definition timestamp_open : string := "<p class=" +:+ dq +:+ "timestamp" +:+ dq +:+ ">".

Definition getTimestampHtml (post : BlogPost.t) : string :=
  let updated := "" in
  let created := timestamp_open +:+ "Written by " +:+ BlogPost.author post +:+ " on " +:+
                 toLocaleString (BlogPost.created post) +:+ "</p>" in
  let updated :=
    if negb (BlogPost.strict_eq (BlogPost.time_value (BlogPost.created post))
                                (BlogPost.time_value (BlogPost.updated post)))
    then timestamp_open +:+ "Updated on " +:+
         toLocaleString (BlogPost.updated post) +:+ "</p>"
    else updated in
  created +:+ updated.

Definition getBodyHtml (post : BlogPost.t) : result string :=
  match BlogPost.content post with
  | Some content => Ok ("<p>" +:+ Str.replace_newlines "</p><p>" content +:+ "</p>")
  | None => Throw TypeError      (* [undefined.replace] *)
  end.

Definition getPostHtml (fs : files) (postMeta : option BlogPostMeta.t) (contentOnly : bool)
    : result string :=
  match postMeta with
  | None => Throw TypeError      (* [undefined.getPost()] *)
  | Some m =>
      post ← BlogPostMeta.getPost fs m;
      body ← getBodyHtml post;
      if contentOnly then Ok (getTitleHtml post +:+ getTimestampHtml post +:+ body)
      else Ok ("<article>" +:+ getTitleHtml post +:+ getTimestampHtml post +:+
               body +:+ "</article>")
  end.

End Renderers.

(** ** Page assembly *)

(** The page: the [innerHTML] of each element, by element id. *)
Abbreviation page := (gmap string string).

(** [document.getElementById(domId).innerHTML = content] *)
Definition set_innerHTML (dom : page) (domId content : string) : result page :=
  match dom !! domId with
  | Some _ => Ok (<[domId := content]> dom)
  | None => Throw TypeError
  end.

(** The value of a call of an [async] function that is not awaited. *)
Inductive promise (A : Type) : Type :=
| Fulfilled (a : A).
Arguments Fulfilled {A} a.

(** What the variable [content] of [getBlogPosts] holds. *)
Inductive content_value : Type :=
| CPromise (p : promise string)
| CString (s : string).

(** String conversion, as done by [+] with a string and by the [innerHTML]
    setter. *)
Definition ToString (c : content_value) : string :=
  match c with
  | CPromise _ => "[object Promise]"
  | CString s => s
  end.

(** [content += html] *)
Definition plus_assign (content : content_value) (html : string) : content_value :=
  CString (ToString content +:+ html).

Definition getPostFromUrl : promise string := Fulfilled "".

Section PageAssembly.
Context `{Platform} (fs : files).

(** [for (const postMeta in postList) { content += await getPostHtml(postList[postMeta]) }] *)
Fixpoint for_in_postList (postList : list BlogPostMeta.t) (content : content_value)
    : result content_value :=
  match postList with
  | [] => Ok content
  | postMeta :: rest =>
      html ← getPostHtml fs (Some postMeta) false;
      for_in_postList rest (plus_assign content html)
  end.

Definition getBlogPosts (h : store) (dom : page) (domId directory file : string)
    (maxPosts : Z) (sortBy : string) (reverse : bool) : result page :=
  let content := CPromise getPostFromUrl in
  match BlogPostMetaList.getPostsSorted fs sortBy reverse
          (BlogPostMetaList.new file directory h) with
  | (Throw e, _) => Throw e
  | (Ok l, σ) =>
      postList ← (BlogPostMetaList.read l σ).1;
      content ← for_in_postList postList content;
      set_innerHTML dom domId (ToString content)
  end.

(** The "Read More" link of [latestBlogPost]. *)
Definition read_more (id : string) : string :=
  "<a href=" +:+ dq +:+ "blog.html?id='" +:+ Str.replace_first ".json" "" id +:+
  "'" +:+ dq +:+ "><i>Read More</i></a>".

Definition latestBlogPost (h : store) (dom : page) (domId directory file : string)
    (maxChars : Z) (contentOnly : bool) : result page :=
  let content := "" in
  match BlogPostMetaList.getPostsSorted fs "created" true
          (BlogPostMetaList.new file directory h) with
  | (Throw e, _) => Throw e
  | (Ok l, σ) =>
      postList ← (BlogPostMetaList.read l σ).1;
      html ← getPostHtml fs (postList !! 0%nat) contentOnly;
      let content := content +:+ html in
      content ←
        (if (maxChars >=? 0)%Z then
           let content := Str.substr0 content maxChars in
           let content :=
             if (Z.of_nat (String.length content) =? maxChars)%Z
             then Str.substr0 content
                    (Z.min (Z.of_nat (String.length content)) (Str.lastIndexOf_space content))
             else content in
           m ← match postList !! 0%nat with
               | Some m => Ok m
               | None => Throw TypeError
               end;
           Ok (content +:+ read_more (BlogPostMeta.id m))
         else Ok content);
      set_innerHTML dom domId content
  end.

End PageAssembly.

(** ** A platform: an engine in the UTC time zone

    Used for the closed examples.  Dates are read from the date-only ISO form
    [YYYY-MM-DD] (UTC midnight) and printed as [Month D, YYYY]; strings of
    another form are not dates for this engine. *)

Module Utc.

Definition digit (c : ascii) : option Z :=
  let n := Z.of_nat (Ascii.nat_of_ascii c) in
  if ((48 <=? n) && (n <=? 57))%Z then Some (n - 48)%Z else None.

(** The number written by a string of decimal digits, after [acc]. *)
Fixpoint digits (s : string) (acc : Z) : option Z :=
  match s with
  | EmptyString => Some acc
  | String c s' => d ← digit c; digits s' (10 * acc + d)%Z
  end.

(** Days from 1970-01-01 to the civil date [y]-[m]-[d]. *)
Definition days_from_civil (y m d : Z) : Z :=
  let y := (if m <=? 2 then y - 1 else y)%Z in
  let era := (y / 400)%Z in
  let yoe := (y - era * 400)%Z in
  let doy := ((153 * (if m >? 2 then m - 3 else m + 9) + 2) / 5 + d - 1)%Z in
  let doe := (yoe * 365 + yoe / 4 - yoe / 100 + doy)%Z in
  (era * 146097 + doe - 719468)%Z.

(** The civil date (year, month, day) of a day number. *)
Definition civil_from_days (z : Z) : Z * Z * Z :=
  let z := (z + 719468)%Z in
  let era := (z / 146097)%Z in
  let doe := (z - era * 146097)%Z in
  let yoe := ((doe - doe / 1460 + doe / 36524 - doe / 146096) / 365)%Z in
  let doy := (doe - (365 * yoe + yoe / 4 - yoe / 100))%Z in
  let mp := ((5 * doy + 2) / 153)%Z in
  let d := (doy - (153 * mp + 2) / 5 + 1)%Z in
  let m := (if mp <? 10 then mp + 3 else mp - 9)%Z in
  let y := (yoe + era * 400)%Z in
  ((if m <=? 2 then y + 1 else y)%Z, m, d).

Definition ms_per_day : Z := 86400000.

Definition parse_iso_date (s : string) : option Z :=
  if negb (Nat.eqb (String.length s) 10) then None
  else if negb (String.eqb (String.substring 4 1 s) "-" && String.eqb (String.substring 7 1 s) "-")
  then None
  else
    y ← digits (String.substring 0 4 s) 0;
    m ← digits (String.substring 5 2 s) 0;
    d ← digits (String.substring 8 2 s) 0;
    if ((1 <=? m) && (m <=? 12) && (1 <=? d) && (d <=? 31))%Z
    then Some (days_from_civil y m d * ms_per_day)%Z
    else None.

Definition time_clip (n : Z) : option Z :=
  if (Z.abs n <=? 8640000000000000)%Z then Some n else None.

Definition month_name (m : Z) : string :=
  match m with
  | 1 => "January" | 2 => "February" | 3 => "March" | 4 => "April"
  | 5 => "May" | 6 => "June" | 7 => "July" | 8 => "August"
  | 9 => "September" | 10 => "October" | 11 => "November" | _ => "December"
  end%Z.

Definition format_mdy (t : option Z) : string :=
  match t with
  | None => "Invalid Date"
  | Some n =>
      let '(y, m, d) := civil_from_days (n / ms_per_day) in
      month_name m +:+ " " +:+ pretty d +:+ ", " +:+ pretty y
  end.

(** Decimal integers; any other text is NaN for this engine. *)
Definition string_to_number (s : string) : option Z :=
  match s with
  | EmptyString => Some 0%Z
  | String c s' =>
      if Ascii.eqb c (Ascii.ascii_of_nat 45) then
        match s' with
        | EmptyString => None
        | _ => Z.opp <$> digits s' 0
        end
      else digits s 0
  end.

(** The quoted form of a string inside JSON text. *)
Definition hex_digit (n : nat) : string :=
  String.substring n 1 "0123456789abcdef".

Fixpoint json_escape (s : string) : string :=
  match s with
  | EmptyString => ""
  | String c s' =>
      let n := Ascii.nat_of_ascii c in
      (if Nat.eqb n 34 then "\" +:+ dq
       else if Nat.eqb n 92 then "\\"
       else if Nat.eqb n 8 then "\b"
       else if Nat.eqb n 9 then "\t"
       else if Nat.eqb n 10 then "\n"
       else if Nat.eqb n 12 then "\f"
       else if Nat.eqb n 13 then "\r"
       else if Nat.ltb n 32 then "\u00" +:+ hex_digit (n / 16) +:+ hex_digit (n mod 16)
       else String c "") +:+ json_escape s'
  end.

Definition json_quote (s : string) : string := dq +:+ json_escape s +:+ dq.

(** [n] in decimal, with zeros in front up to [width] digits. *)
Fixpoint zeros (k : nat) : string :=
  match k with
  | O => ""
  | S k' => String "0" (zeros k')
  end.

Definition pad (width : nat) (n : Z) : string :=
  let s := pretty n in
  zeros (width - String.length s) +:+ s.

(** [d.toISOString()] *)
Definition to_iso_string (t : Z) : string :=
  let '(y, m, d) := civil_from_days (t / ms_per_day) in
  let ms := (t mod ms_per_day)%Z in
  (if ((0 <=? y) && (y <=? 9999))%Z then pad 4 y
   else (if (y <? 0)%Z then "-" else "+") +:+ pad 6 (Z.abs y)) +:+
  "-" +:+ pad 2 m +:+ "-" +:+ pad 2 d +:+ "T" +:+
  pad 2 (ms / 3600000) +:+ ":" +:+ pad 2 ((ms / 60000) mod 60) +:+ ":" +:+
  pad 2 ((ms / 1000) mod 60) +:+ "." +:+ pad 3 (ms mod 1000) +:+ "Z".

(** [JSON.stringify] on primitives, dates and arrays of strings. *)
Definition stringify (v : jsval) : result (option string) :=
  match v with
  | JUndefined => Ok None
  | JNull | JNaN | JDate None => Ok (Some "null")
  | JBool b => Ok (Some (if b then "true" else "false"))
  | JNum n => Ok (Some (pretty n))
  | JStr s => Ok (Some (json_quote s))
  | JArr l => Ok (Some ("[" +:+ Str.join "," (json_quote <$> l) +:+ "]"))
  | JDate (Some t) => Ok (Some (json_quote (to_iso_string t)))
  end.

Definition date_new (v : jsval) : option Z :=
  match v with
  | JUndefined | JNaN => None
  | JNull => Some 0%Z
  | JBool b => Some (if b then 1 else 0)%Z
  | JNum n => time_clip n
  | JStr s => parse_iso_date s
  | JDate t => t
  | JArr l => parse_iso_date (Str.join "," l)
  end.

(** The sort of this engine is the stable insertion sort on every
    comparator.  With an inconsistent comparator that is one of the orders
    an engine may give, not the order of every engine; the closed examples
    sort handles with textual dates only, on which all engines agree. *)
Definition platform : Platform.
Proof.
  refine {| StringToNumber := string_to_number;
            Date_new := date_new;
            toLocaleString := format_mdy;
            JSON_stringify := stringify;
            engine_sort := @Array_sort;
            engine_sort_perm := _;
            engine_sort_consistent := _ |}.
  - intros A comparefn l. induction l as [|x l IH]; simpl; [reflexivity|].
    transitivity (x :: Array_sort comparefn l); [|by apply perm_skip].
    generalize (Array_sort comparefn l). intros s.
    induction s as [|y s IHs]; simpl; [reflexivity|].
    destruct (comparefn x y <=? 0)%Z; [reflexivity|].
    transitivity (y :: x :: s); [by apply perm_skip|apply perm_swap].
  - reflexivity.
Defined.

End Utc.

(** ** Sample data

    The posts of the test function of the source, listed by a metadata
    document that is not in date order. *)

Module Sample.

Definition post_data (n : string) (created updated : string) : PostData :=
  {| pd_title := "testTitle" +:+ n;
     pd_created := JStr created;
     pd_updated := JStr updated;
     pd_author := "sampleAuthor" +:+ n;
     pd_tags := Some ("tag" +:+ n +:+ "-0,tag" +:+ n +:+ "-1,tag" +:+ n +:+ "-2");
     pd_content := Some ("content" +:+ n) |}.

Definition entry (n : string) (created updated : string) : MetaEntry :=
  {| me_title := "testTitle" +:+ n;
     me_path := "post" +:+ n +:+ ".json";
     me_created := JStr created;
     me_updated := JStr updated;
     me_tags := Some ("tag" +:+ n +:+ "-0,tag" +:+ n +:+ "-1,tag" +:+ n +:+ "-2") |}.

(** A directory whose index lists three posts, not in date order. *)
Definition fs : files :=
  <["sample/testdir.json" := MetaDoc [entry "0" "2022-01-20" "2022-01-21";
                                      entry "2" "2022-01-22" "2022-01-23";
                                      entry "1" "2022-01-21" "2022-01-22"]]>
  (<["sample//post0.json" := PostDoc (post_data "0" "2022-01-20" "2022-01-21")]>
  (<["sample//post1.json" := PostDoc (post_data "1" "2022-01-21" "2022-01-22")]>
  (<["sample//post2.json" := PostDoc (post_data "2" "2022-01-22" "2022-01-23")]> ∅))).

Definition dom : page := <["blog" := "old content"]> ∅.

(** The handles of the three posts, as the index builds them. *)
Definition handle (n : string) (created updated : string) : BlogPostMeta.t :=
  {| BlogPostMeta.title := "testTitle" +:+ n;
     BlogPostMeta.id := "post" +:+ n +:+ ".json";
     BlogPostMeta.path := "sample//post" +:+ n +:+ ".json";
     BlogPostMeta.created := JStr created;
     BlogPostMeta.updated := JStr updated;
     BlogPostMeta.tags := ["tag" +:+ n +:+ "-0"; "tag" +:+ n +:+ "-1"; "tag" +:+ n +:+ "-2"] |}.

Definition h20 : BlogPostMeta.t := handle "0" "2022-01-20" "2022-01-21".
Definition h21 : BlogPostMeta.t := handle "1" "2022-01-21" "2022-01-22".
Definition h22 : BlogPostMeta.t := handle "2" "2022-01-22" "2022-01-23".

(** The first post of the test function of the source, as the UTC engine
    builds it, and the same post without its [getContent] accessor. *)
Definition post0 : BlogPost.t :=
  {| BlogPost.title := "testTitle0";
     BlogPost.created := Some 1642636800000%Z;
     BlogPost.updated := Some 1642723200000%Z;
     BlogPost.author := "sampleAuthor0";
     BlogPost.tags := ["tag0-0"; "tag0-1"; "tag0-2"];
     BlogPost.content := Some "content0" |}.

Definition post0_without_content : BlogPost.object :=
  {| BlogPost.getTitle := BlogPost.getTitle (BlogPost.as_object post0);
     BlogPost.getCreated := BlogPost.getCreated (BlogPost.as_object post0);
     BlogPost.getUpdated := BlogPost.getUpdated (BlogPost.as_object post0);
     BlogPost.getAuthor := BlogPost.getAuthor (BlogPost.as_object post0);
     BlogPost.getTags := BlogPost.getTags (BlogPost.as_object post0);
     BlogPost.getContent := None |}.

(** A post written and last updated at the same instant. *)
Definition post_never_updated : BlogPost.t :=
  {| BlogPost.title := "testTitle0";
     BlogPost.created := Some 1642636800000%Z;
     BlogPost.updated := Some 1642636800000%Z;
     BlogPost.author := "sampleAuthor0";
     BlogPost.tags := ["tag0-0"; "tag0-1"; "tag0-2"];
     BlogPost.content := Some "content0" |}.

(** The index of the sample directory once its content has been
    retrieved: the handles in the order of the metadata document. *)
Definition index : BlogPostMetaList.state :=
  {| BlogPostMetaList.arrays := [[h20; h22; h21]];
     BlogPostMetaList.this :=
       {| BlogPostMetaList.directory := "sample/";
          BlogPostMetaList.path := "sample/testdir.json";
          BlogPostMetaList.initialized := true;
          BlogPostMetaList.posts := BlogPostMetaList.Arr 0 |} |}.

(** The article that the renderers produce for sample post [n]. *)
Definition article (n written updated : string) : string :=
  "<article><h3>testTitle" +:+ n +:+ "</h3><p class=" +:+ dq +:+ "timestamp" +:+ dq +:+
  ">Written by sampleAuthor" +:+ n +:+ " on " +:+ written +:+ "</p><p class=" +:+ dq +:+
  "timestamp" +:+ dq +:+ ">Updated on " +:+ updated +:+ "</p><p>content" +:+ n +:+
  "</p></article>".

(** The page after listing the sample directory, newest post first. *)
Definition listed : page :=
  <["blog" := "[object Promise]" +:+
              article "2" "January 22, 2022" "January 23, 2022" +:+
              article "1" "January 21, 2022" "January 22, 2022" +:+
              article "0" "January 20, 2022" "January 21, 2022"]> dom.

(** A directory with one post whose file name has ".json" in the middle. *)
Definition notes_entry : MetaEntry :=
  {| me_title := "Notes";
     me_path := "notes.json.v2.json";
     me_created := JStr "2022-01-20";
     me_updated := JStr "2022-01-21";
     me_tags := Some "notes" |}.

Definition notes_data : PostData :=
  {| pd_title := "Notes";
     pd_created := JStr "2022-01-20";
     pd_updated := JStr "2022-01-21";
     pd_author := "Ann";
     pd_tags := Some "notes";
     pd_content := Some "The quick brown fox jumps over the lazy dog" |}.

Definition notes_fs : files :=
  <["notes/index.json" := MetaDoc [notes_entry]]>
  (<["notes//notes.json.v2.json" := PostDoc notes_data]> ∅).

(** The rendering of that post cut at the last space before character 145. *)
Definition notes_cut : string :=
  "<h3>Notes</h3><p class=" +:+ dq +:+ "timestamp" +:+ dq +:+
  ">Written by Ann on January 20, 2022</p><p class=" +:+ dq +:+ "timestamp" +:+ dq +:+
  ">Updated on January 21, 2022</p><p>The quick brown".

End Sample.

(** ** Notions used in the statements *)

(** The sequence of handles stored in an index, when its [posts] field holds
    an array. *)
Definition stored (σ : BlogPostMetaList.state) : option (list BlogPostMeta.t) :=
  match BlogPostMetaList.posts (BlogPostMetaList.this σ) with
  | BlogPostMetaList.Arr l => BlogPostMetaList.arrays σ !! l
  | _ => None
  end.

(** A sequence of handles reflects the entries of a metadata document: one
    handle per entry, built from it, in the same order. *)
Definition reflects (directory : string) (entries : list MetaEntry)
    (a : list BlogPostMeta.t) : Prop :=
  Forall2 (λ e m, BlogPostMeta.constructor directory e = Ok m) entries a.

(** "Before any access the sequence is empty and the flag is false." *)
Definition untouched (σ : BlogPostMetaList.state) : Prop :=
  BlogPostMetaList.initialized (BlogPostMetaList.this σ) = false ∧ stored σ = Some [].

(** "Sorted retrieval leaves the stored sequence as it was." *)
Definition leaves_stored_sequence `{Platform} (fs : files) (attr : string) (reverse : bool)
    (σ : BlogPostMetaList.state) : Prop :=
  stored (BlogPostMetaList.getPostsSorted fs attr reverse σ).2 = stored σ.

(** The rendered posts, one after the other. *)
Definition concat_html (htmls : list string) : string := foldr String.append "" htmls.

(** "The id with the .json suffix stripped": the id without its last five
    characters when these are ".json", the id itself otherwise. *)
Definition strip_json_suffix (id : string) : string :=
  let n := String.length id in
  if String.eqb (String.substring (n - 5) 5 id) ".json"
  then String.substring 0 (n - 5) id
  else id.

(** The "Read More" link to a given target. *)
Definition link_to (target : string) : string :=
  "<a href=" +:+ dq +:+ "blog.html?id='" +:+ target +:+ "'" +:+ dq +:+ "><i>Read More</i></a>".

(** Text in one word: no space in it. *)
Fixpoint no_space (s : string) : bool :=
  match s with
  | EmptyString => true
  | String c s' => negb (Ascii.eqb c Str.space) && no_space s'
  end.

(** [x] may stand before [y] in the order of a comparator. *)
Definition before {A : Type} (cmp : A → A → Z) (x y : A) : Prop := (cmp x y <= 0)%Z.

(** The number of places of [s] where [pat] occurs. *)
Fixpoint count_sub (pat s : string) : nat :=
  (if String.prefix pat s then 1 else 0) +
  match s with
  | EmptyString => 0
  | String _ s' => count_sub pat s'
  end.

(** Text without markup: no ["<"] in it. *)
Fixpoint no_lt (s : string) : bool :=
  match s with
  | EmptyString => true
  | String c s' => negb (Ascii.eqb c "<") && no_lt s'
  end.

(** Two handles with textual [created] values, the first not after the
    second. *)
Definition created_le (m1 m2 : BlogPostMeta.t) : Prop :=
  ∃ x y, BlogPostMeta.created m1 = JStr x ∧ BlogPostMeta.created m2 = JStr y ∧
         String.ltb y x = false.

Definition created_is_text (m : BlogPostMeta.t) : Prop :=
  ∃ x, BlogPostMeta.created m = JStr x.

(** Oldest first. *)
Definition ascending (l : list BlogPostMeta.t) : Prop := StronglySorted created_le l.

(** ** Further notions *)

(** Text without a comma, and text without a newline. *)
Fixpoint no_comma (s : string) : bool :=
  match s with
  | EmptyString => true
  | String c s' => negb (Ascii.eqb c Str.comma) && no_comma s'
  end.

Fixpoint no_newline (s : string) : bool :=
  match s with
  | EmptyString => true
  | String c s' => negb (Ascii.eqb c Str.newline) && no_newline s'
  end.

(** The handle was created on the date written [d]. *)
Definition created_on (d : string) (m : BlogPostMeta.t) : bool :=
  match BlogPostMeta.created m with
  | JStr x => String.eqb x d
  | _ => false
  end.

(** Newest first. *)
Definition descending (l : list BlogPostMeta.t) : Prop :=
  StronglySorted (λ m1 m2, created_le m2 m1) l.

(** The index left by a constructor whose [init()] has failed with [e]: the
    flag is set and [posts] holds the rejected promise. *)
Definition failed_index (file directory : string) (h : store) (e : error)
    : BlogPostMetaList.state :=
  {| BlogPostMetaList.arrays := h;
     BlogPostMetaList.this :=
       {| BlogPostMetaList.directory := directory;
          BlogPostMetaList.path := directory +:+ file;
          BlogPostMetaList.initialized := true;
          BlogPostMetaList.posts := BlogPostMetaList.InitRejected e |} |}.

(** The path of a handle is its directory, a slash and its id. *)
Definition path_joined (directory : string) (m : BlogPostMeta.t) : Prop :=
  BlogPostMeta.path m = directory +:+ "/" +:+ BlogPostMeta.id m.

(** ** Further cases *)

Module Cases.

(** A post with a given content. *)
Definition note (content : string) : BlogPost.t :=
  {| BlogPost.title := "Notes";
     BlogPost.created := Some 1642636800000%Z;
     BlogPost.updated := Some 1642723200000%Z;
     BlogPost.author := "Ann";
     BlogPost.tags := ["notes"];
     BlogPost.content := Some content |}.

(** A post whose created date could not be read. *)
Definition undated : BlogPost.t :=
  {| BlogPost.title := "Notes";
     BlogPost.created := None;
     BlogPost.updated := Some 1642723200000%Z;
     BlogPost.author := "Ann";
     BlogPost.tags := ["notes"];
     BlogPost.content := Some "text" |}.

(** The handle of the post of the notes directory and its rendering without
    the article tags. *)
Definition notes_handle : BlogPostMeta.t :=
  {| BlogPostMeta.title := "Notes";
     BlogPostMeta.id := "notes.json.v2.json";
     BlogPostMeta.path := "notes//notes.json.v2.json";
     BlogPostMeta.created := JStr "2022-01-20";
     BlogPostMeta.updated := JStr "2022-01-21";
     BlogPostMeta.tags := ["notes"] |}.

Definition notes_html : string :=
  Sample.notes_cut +:+ " fox jumps over the lazy dog</p>".

(** The state of the index of the notes directory after a descending
    retrieval. *)
Definition notes_index : BlogPostMetaList.state :=
  {| BlogPostMetaList.arrays := [[notes_handle]];
     BlogPostMetaList.this :=
       {| BlogPostMetaList.directory := "notes/";
          BlogPostMetaList.path := "notes/index.json";
          BlogPostMetaList.initialized := true;
          BlogPostMetaList.posts := BlogPostMetaList.Arr 0 |} |}.

(** A directory whose metadata document lists no post, and one whose
    metadata document lists a post that is not there. *)
Definition empty_fs : files := <["empty/index.json" := MetaDoc []]> ∅.

Definition broken_fs : files := <["notes/index.json" := MetaDoc [Sample.notes_entry]]> ∅.

(** A metadata document one of whose entries has no tags. *)
Definition untagged_entry : MetaEntry :=
  {| me_title := "Draft";
     me_path := "draft.json";
     me_created := JStr "2022-01-23";
     me_updated := JStr "2022-01-23";
     me_tags := None |}.

Definition untagged_fs : files :=
  <["notes/index.json" := MetaDoc [Sample.notes_entry; untagged_entry]]>
  (<["notes//notes.json.v2.json" := PostDoc Sample.notes_data]> ∅).

(** A handle with a given title and creation date. *)
Definition titled (title date : string) : BlogPostMeta.t :=
  {| BlogPostMeta.title := title;
     BlogPostMeta.id := title +:+ ".json";
     BlogPostMeta.path := "shelf//" +:+ title +:+ ".json";
     BlogPostMeta.created := JStr date;
     BlogPostMeta.updated := JStr date;
     BlogPostMeta.tags := ["shelf"] |}.

(** An initialized index whose array, at location 0, holds the given
    handles. *)
Definition shelf_of (a : list BlogPostMeta.t) : BlogPostMetaList.state :=
  {| BlogPostMetaList.arrays := [a];
     BlogPostMetaList.this :=
       {| BlogPostMetaList.directory := "shelf/";
          BlogPostMetaList.path := "shelf/index.json";
          BlogPostMetaList.initialized := true;
          BlogPostMetaList.posts := BlogPostMetaList.Arr 0 |} |}.

(** Three handles whose titles are not in the order of their dates. *)
Definition shelf : BlogPostMetaList.state :=
  shelf_of [titled "C" "2022-01-20"; titled "A" "2022-01-22"; titled "B" "2022-01-21"].

(** Two handles of the same date, with an older one between them. *)
Definition twins : list BlogPostMeta.t :=
  [titled "A" "2022-01-21"; titled "B" "2022-01-20"; titled "C" "2022-01-21"].

(** A handle whose metadata entry had no [created] field. *)
Definition dateless (title : string) : BlogPostMeta.t :=
  {| BlogPostMeta.title := title;
     BlogPostMeta.id := title +:+ ".json";
     BlogPostMeta.path := "shelf//" +:+ title +:+ ".json";
     BlogPostMeta.created := JUndefined;
     BlogPostMeta.updated := JUndefined;
     BlogPostMeta.tags := ["shelf"] |}.

End Cases.

(** ** Tactics *)

(** Case analysis along a chain of calls joined by [&&]: on the outcome of
    each call and on each test, until the goal is closed. *)
Ltac chain :=
  repeat first
    [ done
    | match goal with
      | |- context [match ?r with Ok _ => _ | Throw _ => _ end] => destruct r; simpl
      | |- context [BlogPost.and_then ?b _] => destruct b; simpl
      end ].

(** * Properties *)

(** ** The order on strings *)

Lemma ltb_compare x y : String.ltb x y = true ↔ String.compare x y = Lt.
Proof. unfold String.ltb. destruct (String.compare x y); split; congruence. Qed.

Lemma ltb_irrefl x : String.ltb x x = false.
Proof.
  unfold String.ltb. assert (String.compare x x = Eq) as ->; [|done].
  by apply String_as_OT.cmp_eq.
Qed.

Lemma ltb_trans x y z :
  String.ltb x y = true → String.ltb y z = true → String.ltb x z = true.
Proof.
  rewrite !ltb_compare. intros Hxy Hyz.
  apply String_as_OT.cmp_lt. eapply String_as_OT.lt_trans; by apply String_as_OT.cmp_lt.
Qed.

Lemma ltb_asym x y : String.ltb x y = true → String.ltb y x = false.
Proof.
  intros Hxy. destruct (String.ltb y x) eqn:Hyx; [|done].
  pose proof (ltb_trans _ _ _ Hxy Hyx) as Hxx. by rewrite ltb_irrefl in Hxx.
Qed.

Lemma ltb_total x y : String.ltb x y = false → String.ltb y x = false → x = y.
Proof.
  unfold String.ltb. rewrite (String.compare_antisym y x).
  destruct (String.compare x y) eqn:Hc; simpl; try done.
  intros _ _. by apply String.compare_eq_iff.
Qed.

(** [x ≤ y] as "not [y < x]" is transitive. *)
Lemma not_gtb_trans x y z :
  String.ltb y x = false → String.ltb z y = false → String.ltb z x = false.
Proof.
  intros Hxy Hyz. destruct (String.ltb z x) eqn:Hzx; [|done].
  destruct (String.ltb x y) eqn:Hlt.
  - pose proof (ltb_trans _ _ _ Hzx Hlt) as Hzy. congruence.
  - pose proof (ltb_total _ _ Hlt Hxy) as ->. congruence.
Qed.

(** ** Array.prototype.sort: permutation, order, stability *)

Section ArraySortFacts.
Context {A : Type} (cmp : A → A → Z).

Lemma sort_insert_perm x l : sort_insert cmp x l ≡ₚ x :: l.
Proof.
  induction l as [|y l IH]; simpl; [done|].
  destruct (cmp x y <=? 0)%Z; [done|].
  rewrite IH. apply Permutation_swap.
Qed.

Lemma Array_sort_perm l : Array_sort cmp l ≡ₚ l.
Proof.
  induction l as [|x l IH]; simpl; [done|].
  by rewrite sort_insert_perm, IH.
Qed.

Lemma Array_sort_length l : length (Array_sort cmp l) = length l.
Proof. by rewrite Array_sort_perm. Qed.

(** On elements where the comparator is total and transitive, the result
    is in comparator order. *)
Section Ordered.
Context (P : A → Prop).
Hypothesis cmp_total : ∀ x y, P x → P y → (0 < cmp x y)%Z → (cmp y x <= 0)%Z.
Hypothesis cmp_trans :
  ∀ x y z, P x → P y → P z → (cmp x y <= 0)%Z → (cmp y z <= 0)%Z → (cmp x z <= 0)%Z.

Lemma sort_insert_sorted x l :
  P x → Forall P l → StronglySorted (before cmp) l →
  StronglySorted (before cmp) (sort_insert cmp x l).
Proof.
  intros Hx HP Hs. induction Hs as [|y l Hs IH Hy]; simpl.
  - repeat constructor.
  - apply Forall_cons in HP as [HPy HPl].
    destruct (Z.leb_spec (cmp x y) 0) as [Hle|Hgt].
    + constructor; [by constructor|].
      constructor; [done|].
      eapply Forall_impl; [apply Forall_and; split; [exact Hy|exact HPl]|].
      intros z [Hyz HPz]. by apply (cmp_trans x y z).
    + constructor; [by apply IH|].
      rewrite sort_insert_perm. constructor; [|done].
      by apply cmp_total.
Qed.

Lemma Array_sort_sorted l : Forall P l → StronglySorted (before cmp) (Array_sort cmp l).
Proof.
  induction 1 as [|x l Hx HP IH]; simpl; [constructor|].
  apply sort_insert_sorted; [done| |done].
  by rewrite Array_sort_perm.
Qed.
End Ordered.

(** Stability: elements that tie with each other keep their order. *)
Lemma sort_insert_filter (p : A → bool) x l :
  p x = true →
  (∀ y, y ∈ l → p y = true → (cmp x y <= 0)%Z) →
  List.filter p (sort_insert cmp x l) = x :: List.filter p l.
Proof.
  intros Hx. induction l as [|y l IH]; intros Htie; simpl.
  - by rewrite Hx.
  - destruct (Z.leb_spec (cmp x y) 0) as [Hle|Hgt]; simpl.
    + by rewrite Hx.
    + destruct (p y) eqn:Hy.
      * specialize (Htie y (list_elem_of_here _ _) Hy). lia.
      * apply IH. intros z Hz. apply Htie. by apply list_elem_of_further.
Qed.

Lemma sort_insert_filter_out (p : A → bool) x l :
  p x = false → List.filter p (sort_insert cmp x l) = List.filter p l.
Proof.
  intros Hx. induction l as [|y l IH]; simpl.
  - by rewrite Hx.
  - destruct (cmp x y <=? 0)%Z; simpl; [by rewrite Hx|].
    by rewrite IH.
Qed.

Lemma Array_sort_stable (p : A → bool) l :
  (∀ x y, p x = true → p y = true → (cmp x y <= 0)%Z) →
  List.filter p (Array_sort cmp l) = List.filter p l.
Proof.
  intros Htie. induction l as [|x l IH]; simpl; [done|].
  destruct (p x) eqn:Hx.
  - rewrite sort_insert_filter; [by rewrite IH|done|]. intros y _ Hy. by apply Htie.
  - by rewrite sort_insert_filter_out.
Qed.

End ArraySortFacts.

(** ** The comparator *)

Section ComparatorFacts.
Context `{Platform} {A : Type} `{HasProps A}.

Lemma postSorter_text (p : string) (a b : A) (x y : string) :
  get_prop a p = JStr x → get_prop b p = JStr y →
  postSorter p false a b =
    match String.compare x y with Lt => -1 | Eq => 0 | Gt => 1 end%Z.
Proof.
  intros Ha Hb. unfold postSorter, js_gt, js_lt. rewrite Ha, Hb. simpl.
  unfold String.ltb. rewrite (String.compare_antisym y x).
  by destruct (String.compare x y).
Qed.

Lemma postSorter_swap (p : string) (a b : A) :
  postSorter p true a b = postSorter p false b a.
Proof. reflexivity. Qed.

(** A missing field ties with everything, in both directions. *)
Lemma postSorter_undefined_ties (p : string) (reversed : bool) (a b : A) :
  get_prop a p = JUndefined →
  postSorter p reversed a b = 0%Z ∧ postSorter p reversed b a = 0%Z.
Proof.
  intros Ha.
  destruct reversed; cbv beta iota delta [postSorter js_gt js_lt]; rewrite Ha; simpl;
    destruct (ToPrimitive (get_prop b p)); simpl; by repeat case_match.
Qed.

End ComparatorFacts.

(** On plain objects: an object without the field against one with it. *)
Lemma postSorter_plain_object_tie `{Platform} :
  postSorter "created" false (∅ : gmap string jsval) (<["created" := JStr "2022-01-20"]> ∅) = 0%Z.
Proof.
  pose proof (postSorter_undefined_ties "created" false (∅ : gmap string jsval)
                (<["created" := JStr "2022-01-20"]> ∅)) as Htie.
  apply Htie. reflexivity.
Qed.

(** On handles with textual [created] values the comparator for "created"
    is a total preorder, so sorting with it gives an ascending sequence. *)
Lemma postSorter_created_le `{Platform} (m1 m2 : BlogPostMeta.t) :
  created_is_text m1 → created_is_text m2 →
  (postSorter "created" false m1 m2 <= 0)%Z ↔ created_le m1 m2.
Proof.
  intros [x Hx] [y Hy].
  rewrite (postSorter_text "created" m1 m2 x y) by done.
  unfold created_le. rewrite Hx, Hy. split.
  - intros Hle. exists x, y. split_and!; try done.
    unfold String.ltb. rewrite (String.compare_antisym y x).
    destruct (String.compare x y); simpl; done.
  - intros (x' & y' & [= <-] & [= <-] & Hlt).
    unfold String.ltb in Hlt. rewrite (String.compare_antisym y x) in Hlt.
    destruct (String.compare x y); simpl in *; try done.
Qed.

Lemma StronglySorted_change {A} (P : A → Prop) (R R' : A → A → Prop) (l : list A) :
  (∀ x y, P x → P y → R x y → R' x y) →
  Forall P l → StronglySorted R l → StronglySorted R' l.
Proof.
  intros HR HP Hs. induction Hs as [|x l Hs IH Hx]; [constructor|].
  apply Forall_cons in HP as [HPx HPl].
  constructor; [by apply IH|].
  eapply Forall_impl; [apply Forall_and; split; [exact Hx|exact HPl]|].
  intros y [Hxy HPy]. by apply HR.
Qed.

Lemma Array_sort_created_ascending `{Platform} (l : list BlogPostMeta.t) :
  Forall created_is_text l → ascending (Array_sort (postSorter "created" false) l).
Proof.
  intros Hl.
  pose proof (Array_sort_sorted (postSorter "created" false) created_is_text) as Hs.
  assert (Forall created_is_text (Array_sort (postSorter "created" false) l)) as Hl'.
  { by rewrite Array_sort_perm. }
  unfold ascending.
  eapply (StronglySorted_change created_is_text); [|exact Hl'|].
  - intros m1 m2 H1 H2. by apply postSorter_created_le.
  - apply Hs; [| |done].
    + intros m1 m2 [x Hx] [y Hy].
      rewrite (postSorter_text "created" m1 m2 x y), (postSorter_text "created" m2 m1 y x) by done.
      rewrite (String.compare_antisym y x). destruct (String.compare x y); simpl; lia.
    + intros m1 m2 m3 H1 H2 H3.
      rewrite !postSorter_created_le by done.
      intros (x & y & Hx & Hy & Hxy) (y' & z & Hy' & Hz & Hyz).
      rewrite Hy in Hy'. injection Hy' as <-.
      exists x, z. split_and!; try done. by eapply not_gtb_trans.
Qed.

(** ** Sorting by date: both directions *)

Lemma created_le_refl m : created_is_text m → created_le m m.
Proof. intros [x Hx]. exists x, x. split_and!; try done. apply ltb_irrefl. Qed.

Lemma created_le_total m1 m2 :
  created_is_text m1 → created_is_text m2 → created_le m1 m2 ∨ created_le m2 m1.
Proof.
  intros [x Hx] [y Hy]. destruct (String.ltb y x) eqn:Hyx.
  - right. exists y, x. split_and!; try done. by apply ltb_asym.
  - left. by exists x, y.
Qed.

Lemma created_le_trans m1 m2 m3 : created_le m1 m2 → created_le m2 m3 → created_le m1 m3.
Proof.
  intros (x & y & Hx & Hy & Hxy) (y' & z & Hy' & Hz & Hyz).
  rewrite Hy in Hy'. injection Hy' as <-.
  exists x, z. split_and!; try done. by eapply not_gtb_trans.
Qed.

(** In either direction the comparator for "created" tells which of two
    handles with textual dates may come first. *)
Lemma postSorter_created_before `{Platform} (reverse : bool) (m1 m2 : BlogPostMeta.t) :
  created_is_text m1 → created_is_text m2 →
  before (postSorter "created" reverse) m1 m2 ↔
    if reverse then created_le m2 m1 else created_le m1 m2.
Proof.
  intros H1 H2. unfold before. destruct reverse.
  - rewrite postSorter_swap. by apply postSorter_created_le.
  - by apply postSorter_created_le.
Qed.

Lemma Array_sort_created_ordered `{Platform} (reverse : bool) (l : list BlogPostMeta.t) :
  Forall created_is_text l →
  StronglySorted (before (postSorter "created" reverse))
    (Array_sort (postSorter "created" reverse) l).
Proof.
  intros Hl. apply (Array_sort_sorted _ created_is_text); [| |done].
  - intros m1 m2 H1 H2 Hgt.
    apply (postSorter_created_before reverse m2 m1 H2 H1).
    destruct (created_le_total m1 m2 H1 H2) as [Hle|Hle].
    + assert (before (postSorter "created" reverse) m1 m2 → False) as Hno.
      { unfold before. lia. }
      destruct reverse.
      * destruct (created_le_total m2 m1 H2 H1) as [Hle'|Hle']; [|done].
        exfalso. apply Hno. by apply postSorter_created_before.
      * exfalso. apply Hno. by apply postSorter_created_before.
    + destruct reverse; [|done].
      destruct (created_le_total m2 m1 H2 H1) as [Hle'|Hle']; [|done].
      exfalso. assert (before (postSorter "created" true) m1 m2) as Hb.
      { by apply postSorter_created_before. }
      unfold before in Hb. lia.
  - intros m1 m2 m3 H1 H2 H3 H12 H23.
    apply (postSorter_created_before reverse m1 m3 H1 H3).
    apply (postSorter_created_before reverse m1 m2 H1 H2) in H12.
    apply (postSorter_created_before reverse m2 m3 H2 H3) in H23.
    destruct reverse; by eapply created_le_trans.
Qed.

(** Sorting a sequence that is already in comparator order changes
    nothing. *)
Lemma Array_sort_ordered_id {A : Type} (cmp : A → A → Z) (l : list A) :
  StronglySorted (before cmp) l → Array_sort cmp l = l.
Proof.
  induction 1 as [|x l Hs IH Hx]; simpl; [done|]. rewrite IH.
  destruct l as [|y l]; [done|]. simpl.
  apply Forall_cons in Hx as [Hxy _]. unfold before in Hxy.
  by destruct (Z.leb_spec (cmp x y) 0); [|lia].
Qed.

Lemma Array_sort_created_descending `{Platform} (l : list BlogPostMeta.t) :
  Forall created_is_text l → descending (Array_sort (postSorter "created" true) l).
Proof.
  intros Hl. unfold descending.
  eapply (StronglySorted_change created_is_text); [| |by apply Array_sort_created_ordered].
  - intros m1 m2 H1 H2. by apply (postSorter_created_before true).
  - by rewrite Array_sort_perm.
Qed.

(** ** The engine's sort *)

Lemma engine_sort_length `{Platform} {A : Type} (cmp : A → A → Z) (l : list A) :
  length (engine_sort cmp l) = length l.
Proof. by rewrite engine_sort_perm. Qed.

Lemma engine_sort_nil `{Platform} {A : Type} (cmp : A → A → Z) : engine_sort cmp [] = [].
Proof. apply Permutation_nil_r. apply engine_sort_perm. Qed.

Lemma compare_refl d : String.compare d d = Eq.
Proof. by apply String_as_OT.cmp_eq. Qed.

Lemma compare_lt_trans x y z :
  String.compare x y = Lt → String.compare y z = Lt → String.compare x z = Lt.
Proof. rewrite <- !ltb_compare. apply ltb_trans. Qed.

(** The comparator for "created", on three textual dates: its values are
    those of the three-way comparison of the dates, in the direction
    asked. *)
Lemma postSorter_created_text `{Platform} (reverse : bool) (m1 m2 : BlogPostMeta.t)
    (d1 d2 : string) :
  BlogPostMeta.created m1 = JStr d1 → BlogPostMeta.created m2 = JStr d2 →
  postSorter "created" reverse m1 m2 =
    match String.compare d1 d2 with
    | Lt => if reverse then 1 else -1
    | Eq => 0
    | Gt => if reverse then -1 else 1
    end%Z.
Proof.
  intros H1 H2. destruct reverse.
  - rewrite postSorter_swap, (postSorter_text "created" m2 m1 d2 d1 H2 H1).
    rewrite (String.compare_antisym d1 d2). by destruct (String.compare d2 d1).
  - rewrite (postSorter_text "created" m1 m2 d1 d2 H1 H2). by destruct (String.compare d1 d2).
Qed.

(** On handles with textual dates the comparator for "created" is
    consistent, in both directions. *)
Lemma postSorter_created_consistent `{Platform} (reverse : bool) (l : list BlogPostMeta.t) :
  Forall created_is_text l → consistent (postSorter "created" reverse) l.
Proof.
  intros Hl x y z Hx Hy Hz.
  destruct (proj1 (Forall_forall _ _) Hl x Hx) as [dx Hdx].
  destruct (proj1 (Forall_forall _ _) Hl y Hy) as [dy Hdy].
  destruct (proj1 (Forall_forall _ _) Hl z Hz) as [dz Hdz].
  rewrite (postSorter_created_text reverse x x dx dx Hdx Hdx),
    (postSorter_created_text reverse x y dx dy Hdx Hdy),
    (postSorter_created_text reverse y x dy dx Hdy Hdx),
    (postSorter_created_text reverse y z dy dz Hdy Hdz),
    (postSorter_created_text reverse x z dx dz Hdx Hdz).
  pose proof (compare_lt_trans dx dy dz) as Hlt.
  pose proof (compare_lt_trans dz dy dx) as Hgt.
  rewrite compare_refl.
  rewrite (String.compare_antisym dx dy), (String.compare_antisym dy dz),
    (String.compare_antisym dx dz) in Hlt |- *.
  destruct (String.compare dy dx) eqn:Hyx.
  - apply String.compare_eq_iff in Hyx as ->.
    destruct (String.compare dz dx), reverse; simpl; split_and!; intros; lia.
  - specialize (λ Hb, Hgt Hb eq_refl).
    destruct (String.compare dz dy) eqn:Hzy.
    + apply String.compare_eq_iff in Hzy as ->. rewrite Hyx.
      destruct reverse; simpl; split_and!; intros; lia.
    + rewrite (Hgt eq_refl).
      destruct reverse; simpl; split_and!; intros; lia.
    + destruct (String.compare dz dx), reverse; simpl; split_and!; intros; lia.
  - destruct (String.compare dz dy) eqn:Hzy.
    + apply String.compare_eq_iff in Hzy as ->. rewrite Hyx.
      destruct reverse; simpl; split_and!; intros; lia.
    + destruct (String.compare dz dx), reverse; simpl; split_and!; intros; lia.
    + assert (String.compare dz dx = Gt) as ->.
      { simpl in Hlt. specialize (Hlt eq_refl eq_refl). by destruct (String.compare dz dx). }
      destruct reverse; simpl; split_and!; intros; lia.
Qed.

(** So every engine sorts them as the stable sort does. *)
Lemma engine_sort_created `{Platform} (reverse : bool) (l : list BlogPostMeta.t) :
  Forall created_is_text l →
  engine_sort (postSorter "created" reverse) l = Array_sort (postSorter "created" reverse) l.
Proof. intros Hl. by apply engine_sort_consistent, postSorter_created_consistent. Qed.

(** A handle without a date breaks the consistency: it ties with a newer
    and with an older handle, which do not tie with each other.  On such an
    array the order that the engine gives is not determined by the
    comparator. *)
Lemma dateless_not_consistent `{Platform} (reverse : bool) :
  ¬ consistent (postSorter "created" reverse)
      [Cases.titled "A" "2022-01-22"; Cases.dateless "X"; Cases.titled "B" "2022-01-20"].
Proof.
  intros Hcons.
  destruct (Hcons (Cases.titled "A" "2022-01-22") (Cases.dateless "X")
              (Cases.titled "B" "2022-01-20")) as (_ & _ & _ & Htrans & _).
  - repeat constructor.
  - repeat constructor.
  - repeat constructor.
  - pose proof (postSorter_undefined_ties "created" reverse (Cases.dateless "X")
                  (Cases.titled "A" "2022-01-22") eq_refl) as [_ Hax].
    pose proof (postSorter_undefined_ties "created" reverse (Cases.dateless "X")
                  (Cases.titled "B" "2022-01-20") eq_refl) as [Hxb _].
    specialize (Htrans Hax Hxb). by destruct reverse.
Qed.

(** ** The index *)

Section IndexFacts.
Context `{Platform} (fs : files).
Import BlogPostMetaList.

Lemma forEach_push_reflects directory data acc r :
  forEach_push directory data acc = Ok r →
  ∃ a, r = acc ++ a ∧ reflects directory data a.
Proof.
  revert acc. induction data as [|e data IH]; intros acc; simpl.
  - intros [= <-]. exists []. split; [by rewrite app_nil_r|constructor].
  - destruct (BlogPostMeta.constructor directory e) as [m|] eqn:He; simpl; [|done].
    intros Hr. apply IH in Hr as (a & -> & Ha).
    exists (m :: a). split; [by rewrite <- app_assoc|by constructor].
Qed.

Lemma forEach_push_total directory data acc :
  Forall (λ e, is_Some (me_tags e)) data →
  ∃ a, forEach_push directory data acc = Ok (acc ++ a).
Proof.
  intros Hd. revert acc. induction Hd as [|e data [tags He] Hd IH]; intros acc; simpl.
  - exists []. by rewrite app_nil_r.
  - unfold BlogPostMeta.constructor. rewrite He. simpl.
    edestruct IH as [a ->]. eexists. rewrite <- app_assoc. reflexivity.
Qed.

Lemma convert_reflects directory data a :
  convertToMetadataObject directory data = Ok a → reflects directory data a.
Proof.
  intros Hc. apply forEach_push_reflects in Hc as (a' & -> & Ha). done.
Qed.

Lemma reflects_length directory data a :
  reflects directory data a → length a = length data.
Proof. intros Hr. symmetry. by eapply Forall2_length. Qed.

(** The state after [new]: the flag is already set and [posts] holds the
    promise of the initialization in progress. *)
Lemma new_state file directory h :
  new file directory h =
    {| arrays := h;
       this := {| directory := directory; path := directory +:+ file;
                  initialized := true; posts := InitPromise |} |}.
Proof. reflexivity. Qed.

(** The first retrieval on a new index. *)
Lemma getPosts_new file directory h :
  getPosts fs (new file directory h) =
    match fs !! (directory +:+ file) with
    | None => (Throw FetchError, failed_index file directory h FetchError)
    | Some (PostDoc _) => (Throw TypeError, failed_index file directory h TypeError)
    | Some (MetaDoc entries) =>
        match convertToMetadataObject directory entries with
        | Throw e => (Throw e, failed_index file directory h e)
        | Ok a =>
            (Ok (Some (length h)),
             {| arrays := h ++ [a];
                this := {| directory := directory; path := directory +:+ file;
                           initialized := true; posts := Arr (length h) |} |})
        end
    end.
Proof.
  rewrite new_state.
  unfold getPosts, init_settle, init_resume, getJsonData, mbind, M_bind, fmap, M_fmap, lift,
    get_this; simpl.
  destruct (fs !! (directory +:+ file)) as [[entries|d]|]; simpl; try done.
  destruct (convertToMetadataObject directory entries); done.
Qed.

(** Retrieval on an index whose [posts] field holds an array. *)
Lemma getPosts_initialized σ l :
  initialized (this σ) = true → posts (this σ) = Arr l →
  getPosts fs σ = (Ok (Some l), σ).
Proof.
  intros Hi Hp. unfold getPosts, mbind, M_bind, get_this; simpl.
  by rewrite Hi, Hp.
Qed.

(** Sorted retrieval in terms of plain retrieval. *)
Lemma getPostsSorted_after_getPosts attr reverse σ l σ1 a :
  getPosts fs σ = (Ok (Some l), σ1) → arrays σ1 !! l = Some a →
  getPostsSorted fs attr reverse σ =
    (Ok l, {| arrays := <[l := engine_sort (postSorter "created" reverse) a]> (arrays σ1);
              this := this σ1 |}).
Proof.
  intros Hg Ha. unfold getPostsSorted, mbind, M_bind at 1. rewrite Hg.
  unfold sort_in_place, mbind, M_bind, read, write. by rewrite Ha.
Qed.

End IndexFacts.

(** ** Sorted retrieval *)

Section SortedRetrieval.
Context `{Platform} (fs : files).
Import BlogPostMetaList.

(** C1. [getPostsSorted(attr, reverse)] never looks at [attr]: any two field
    names give the same outcome, and when the retrieval succeeds the
    returned array holds what the engine's sort makes of the retrieved
    handles with the comparator for "created" in the direction given by
    [reverse]; when that comparator is consistent on the handles, and so on
    textual dates, that is the stable sort by "created". *)
Theorem getPostsSorted_ignores_attr (attr : string) (reverse : bool) (σ : state) :
  (∀ attr', getPostsSorted fs attr' reverse σ = getPostsSorted fs attr reverse σ) ∧
  (∀ l σ1 a,
     getPosts fs σ = (Ok (Some l), σ1) → arrays σ1 !! l = Some a →
     ∃ σ', getPostsSorted fs attr reverse σ = (Ok l, σ') ∧
           arrays σ' !! l = Some (engine_sort (postSorter "created" reverse) a) ∧
           (consistent (postSorter "created" reverse) a →
            arrays σ' !! l = Some (Array_sort (postSorter "created" reverse) a)) ∧
           (Forall created_is_text a →
            arrays σ' !! l = Some (Array_sort (postSorter "created" reverse) a))).
Proof.
  split; [reflexivity|].
  intros l σ1 a Hg Ha.
  rewrite (getPostsSorted_after_getPosts fs attr reverse σ l σ1 a Hg Ha).
  eexists. split; [reflexivity|]. simpl.
  assert (<[l := engine_sort (postSorter "created" reverse) a]> (arrays σ1) !! l
          = Some (engine_sort (postSorter "created" reverse) a)) as Hstored.
  { apply list_lookup_insert_eq. by eapply lookup_lt_Some. }
  split; [exact Hstored|]. split.
  - intros Hcons. by rewrite Hstored, engine_sort_consistent.
  - intros Htext. by rewrite Hstored, engine_sort_created.
Qed.

(** C3 (amended). [getPostsSorted] sorts the stored array itself: on an
    initialized index it returns the location the index holds, the index is
    otherwise untouched, and the stored sequence is now what the engine's
    sort makes of the old one with the comparator for "created": the same
    handles, as a permutation, whatever their original order was.  When
    that comparator is consistent on the handles it is the stable sort of
    the old sequence; on textual dates it is so, ascending or, when
    [reverse] is true, descending.  No other array changes. *)
Theorem getPostsSorted_sorts_in_place (attr : string) (reverse : bool) (σ : state)
    (l : loc) (a : list BlogPostMeta.t) :
  initialized (this σ) = true → posts (this σ) = Arr l → arrays σ !! l = Some a →
  ∃ σ' s, getPostsSorted fs attr reverse σ = (Ok l, σ') ∧
          this σ' = this σ ∧
          stored σ' = Some s ∧
          s = engine_sort (postSorter "created" reverse) a ∧
          s ≡ₚ a ∧
          (∀ l', l' ≠ l → arrays σ' !! l' = arrays σ !! l') ∧
          (consistent (postSorter "created" reverse) a →
           s = Array_sort (postSorter "created" reverse) a) ∧
          (Forall created_is_text a →
           s = Array_sort (postSorter "created" reverse) a ∧
           if reverse then descending s else ascending s).
Proof.
  intros Hi Hp Ha.
  rewrite (getPostsSorted_after_getPosts fs attr reverse σ l σ a
             (getPosts_initialized fs σ l Hi Hp) Ha).
  exists {| arrays := <[l := engine_sort (postSorter "created" reverse) a]> (arrays σ);
            this := this σ |}, (engine_sort (postSorter "created" reverse) a).
  split; [reflexivity|]. split; [reflexivity|].
  unfold stored. cbn [arrays this]. rewrite Hp. split_and!.
  - apply list_lookup_insert_eq. by eapply lookup_lt_Some.
  - reflexivity.
  - apply engine_sort_perm.
  - intros l' Hl'. by apply list_lookup_insert_ne.
  - intros Hcons. by apply engine_sort_consistent.
  - intros Htext. rewrite engine_sort_created by done. split; [done|].
    destruct reverse.
    + by apply Array_sort_created_descending.
    + by apply Array_sort_created_ascending.
Qed.

(** C6. [getPostsMostRecent()] is [getPostsSorted("created", false)]: the
    same outcome in every state, and on handles with textual dates the
    returned sequence is the retrieved one in ascending order of
    "created". *)
Theorem getPostsMostRecent_is_ascending_sort (σ : state) :
  getPostsMostRecent fs σ = getPostsSorted fs "created" false σ ∧
  (∀ l σ1 a,
     getPosts fs σ = (Ok (Some l), σ1) → arrays σ1 !! l = Some a →
     Forall created_is_text a →
     ∃ σ' s, getPostsMostRecent fs σ = (Ok l, σ') ∧ arrays σ' !! l = Some s ∧
             s ≡ₚ a ∧ ascending s).
Proof.
  split; [reflexivity|].
  intros l σ1 a Hg Ha Htext. unfold getPostsMostRecent.
  rewrite (getPostsSorted_after_getPosts fs "created" false σ l σ1 a Hg Ha).
  exists {| arrays := <[l := engine_sort (postSorter "created" false) a]> (arrays σ1);
            this := this σ1 |}, (engine_sort (postSorter "created" false) a).
  split; [reflexivity|]. cbn [arrays this]. split_and!.
  - apply list_lookup_insert_eq. by eapply lookup_lt_Some.
  - apply engine_sort_perm.
  - rewrite engine_sort_created by done. by apply Array_sort_created_ascending.
Qed.

(** C2 (amended). The constructor starts the initialization itself: on a new
    index the flag is already true and [posts] holds the pending result of
    that initialization, not a sequence.  A retrieval that succeeds leaves
    the flag true and stores a sequence that reflects the entries of the
    [posts] array of the metadata document, in order, hence of the same
    length; and the retrieval does succeed when the document is there and
    every entry has its tags. *)
Theorem new_index_initialization (file directory : string) (h : store) :
  initialized (this (new file directory h)) = true ∧
  posts (this (new file directory h)) = InitPromise ∧
  stored (new file directory h) = None ∧
  (∀ r σ', getPosts fs (new file directory h) = (Ok r, σ') →
     ∃ entries a,
       fs !! (directory +:+ file) = Some (MetaDoc entries) ∧
       initialized (this σ') = true ∧ stored σ' = Some a ∧
       reflects directory entries a ∧ length a = length entries) ∧
  (∀ entries,
     fs !! (directory +:+ file) = Some (MetaDoc entries) →
     Forall (λ e, is_Some (me_tags e)) entries →
     ∃ l σ', getPosts fs (new file directory h) = (Ok (Some l), σ')).
Proof.
  split_and!; try reflexivity.
  - intros r σ'. rewrite getPosts_new.
    destruct (fs !! (directory +:+ file)) as [[entries|d]|]; try done.
    destruct (convertToMetadataObject directory entries) as [a|] eqn:Hc; [|done].
    intros [= <- <-]. exists entries, a.
    pose proof (convert_reflects directory entries a Hc) as Hr.
    split_and!; try done.
    + unfold stored. simpl. by apply list_lookup_middle.
    + by eapply reflects_length.
  - intros entries Hfs Htags. rewrite getPosts_new, Hfs.
    destruct (forEach_push_total directory entries [] Htags) as [a Ha].
    unfold convertToMetadataObject. rewrite Ha. by eexists _, _.
Qed.

End SortedRetrieval.

(** ** The comparator: direction *)

Lemma num_lt_asym (oa ob : option Z) :
  match oa, ob with Some a, Some b => (a <? b)%Z | _, _ => false end = true →
  match ob, oa with Some b, Some a => (b <? a)%Z | _, _ => false end = false.
Proof.
  destruct oa as [a|], ob as [b|]; try done.
  intros Hab%Z.ltb_lt. apply Z.ltb_ge. lia.
Qed.

(** [<] never holds in both directions, whatever the two values are. *)
Lemma js_lt_asym `{Platform} (x y : jsval) : js_lt x y = true → js_lt y x = false.
Proof.
  unfold js_lt. generalize (ToPrimitive x) (ToPrimitive y). intros px py.
  destruct px, py; try apply num_lt_asym. apply ltb_asym.
Qed.

Lemma js_lt_irrefl `{Platform} (x : jsval) : js_lt x x = false.
Proof.
  destruct (js_lt x x) eqn:Hx; [|done]. pose proof (js_lt_asym x x Hx). congruence.
Qed.

Section ComparatorDirection.
Context `{Platform} {A : Type} `{HasProps A}.

Lemma postSorter_ascending (p : string) (a b : A) :
  postSorter p false a b =
    (if js_lt (get_prop a p) (get_prop b p) then -1
     else if js_lt (get_prop b p) (get_prop a p) then 1 else 0)%Z.
Proof.
  unfold postSorter, js_gt.
  destruct (js_lt (get_prop a p) (get_prop b p)) eqn:Hab; [|done].
  by rewrite (js_lt_asym _ _ Hab).
Qed.

Lemma postSorter_descending (p : string) (a b : A) :
  postSorter p true a b =
    (if js_lt (get_prop a p) (get_prop b p) then 1
     else if js_lt (get_prop b p) (get_prop a p) then -1 else 0)%Z.
Proof. reflexivity. Qed.

Lemma js_lt_text (x y : string) :
  js_lt (JStr x) (JStr y) = match String.compare x y with Lt => true | _ => false end.
Proof. reflexivity. Qed.

Lemma js_lt_numbers (m n : Z) :
  js_lt (JNum m) (JNum n) = match (m ?= n)%Z with Lt => true | _ => false end.
Proof. reflexivity. Qed.

Lemma js_lt_dates (s t : Z) :
  js_lt (JDate (Some s)) (JDate (Some t)) = match (s ?= t)%Z with Lt => true | _ => false end.
Proof. reflexivity. Qed.

End ComparatorDirection.

(** C9. The comparator for a field orders ascending when [reversed] is false
    and descending when it is true, with 0 on ties, whatever the two values
    of the field are: it returns -1 (reversed: 1) when the first value is
    [<] the second, 1 (reversed: -1) when the second is [<] the first, and 0
    otherwise, in particular when the two values are the same.  On two
    texts this is the order of their code units, on two numbers and on two
    dates the numeric order.  The stable sort, and with it the sort of
    every engine, puts the handles created on 2022-01-20, 2022-01-22,
    2022-01-21 in the order 20, 21, 22 and, in reverse, 22, 21, 20. *)
Theorem postSorter_direction `{Platform} {A : Type} `{HasProps A} (p : string) (a b : A) :
  postSorter p false a b =
    (if js_lt (get_prop a p) (get_prop b p) then -1
     else if js_lt (get_prop b p) (get_prop a p) then 1 else 0)%Z ∧
  postSorter p true a b =
    (if js_lt (get_prop a p) (get_prop b p) then 1
     else if js_lt (get_prop b p) (get_prop a p) then -1 else 0)%Z ∧
  (get_prop a p = get_prop b p →
   postSorter p false a b = 0%Z ∧ postSorter p true a b = 0%Z) ∧
  (∀ x y : string, get_prop a p = JStr x → get_prop b p = JStr y →
   postSorter p false a b = match String.compare x y with Lt => -1 | Eq => 0 | Gt => 1 end%Z ∧
   postSorter p true a b = match String.compare x y with Lt => 1 | Eq => 0 | Gt => -1 end%Z) ∧
  (∀ m n : Z, get_prop a p = JNum m → get_prop b p = JNum n →
   postSorter p false a b = match (m ?= n)%Z with Lt => -1 | Eq => 0 | Gt => 1 end%Z ∧
   postSorter p true a b = match (m ?= n)%Z with Lt => 1 | Eq => 0 | Gt => -1 end%Z) ∧
  (∀ s t : Z, get_prop a p = JDate (Some s) → get_prop b p = JDate (Some t) →
   postSorter p false a b = match (s ?= t)%Z with Lt => -1 | Eq => 0 | Gt => 1 end%Z ∧
   postSorter p true a b = match (s ?= t)%Z with Lt => 1 | Eq => 0 | Gt => -1 end%Z) ∧
  Array_sort (postSorter "created" false) [Sample.h20; Sample.h22; Sample.h21]
    = [Sample.h20; Sample.h21; Sample.h22] ∧
  Array_sort (postSorter "created" true) [Sample.h20; Sample.h22; Sample.h21]
    = [Sample.h22; Sample.h21; Sample.h20] ∧
  engine_sort (postSorter "created" false) [Sample.h20; Sample.h22; Sample.h21]
    = [Sample.h20; Sample.h21; Sample.h22] ∧
  engine_sort (postSorter "created" true) [Sample.h20; Sample.h22; Sample.h21]
    = [Sample.h22; Sample.h21; Sample.h20].
Proof.
  split_and!.
  - apply postSorter_ascending.
  - apply postSorter_descending.
  - intros Hab. rewrite postSorter_ascending, postSorter_descending, Hab.
    by rewrite js_lt_irrefl.
  - intros x y Ha Hb. rewrite postSorter_ascending, postSorter_descending, Ha, Hb.
    rewrite !js_lt_text, (String.compare_antisym y x).
    by destruct (String.compare x y).
  - intros m n Ha Hb. rewrite postSorter_ascending, postSorter_descending, Ha, Hb.
    rewrite !js_lt_numbers, (Z.compare_antisym m n).
    by destruct (m ?= n)%Z.
  - intros s t Ha Hb. rewrite postSorter_ascending, postSorter_descending, Ha, Hb.
    rewrite !js_lt_dates, (Z.compare_antisym s t).
    by destruct (s ?= t)%Z.
  - reflexivity.
  - reflexivity.
  - rewrite engine_sort_created; [reflexivity|].
    repeat constructor; eexists; reflexivity.
  - rewrite engine_sort_created; [reflexivity|].
    repeat constructor; eexists; reflexivity.
Qed.

Lemma postSorter_direction_witness :
  (postSorter (H := Utc.platform) "created" false Sample.h20 Sample.h22 = (-1)%Z ∧
   postSorter (H := Utc.platform) "created" true Sample.h20 Sample.h22 = 1%Z) ∧
  (postSorter (H := Utc.platform) "n" false
     (<["n" := JNum 3]> ∅ : gmap string jsval) (<["n" := JNum 10]> ∅) = (-1)%Z ∧
   postSorter (H := Utc.platform) "n" true
     (<["n" := JNum 3]> ∅ : gmap string jsval) (<["n" := JNum 10]> ∅) = 1%Z).
Proof.
  split.
  - pose proof (postSorter_direction (H := Utc.platform) "created" Sample.h20 Sample.h22)
      as (_ & _ & _ & Htext & _).
    exact (Htext "2022-01-20" "2022-01-22" eq_refl eq_refl).
  - pose proof (postSorter_direction (H := Utc.platform) "n"
                  (<["n" := JNum 3]> ∅ : gmap string jsval) (<["n" := JNum 10]> ∅))
      as (_ & _ & _ & _ & Hnum & _).
    exact (Hnum 3%Z 10%Z eq_refl eq_refl).
Defined.

(** C10. The reversed comparator is the plain comparator with its arguments
    exchanged. *)
Theorem postSorter_reversed_exchanges `{Platform} {A : Type} `{HasProps A}
    (p : string) (a b : A) :
  postSorter p true a b = postSorter p false b a.
Proof. unfold postSorter, js_gt. reflexivity. Qed.

(** ** Closed instances on the sample directory *)

Lemma sample_index_reached :
  BlogPostMetaList.getPosts Sample.fs
    (BlogPostMetaList.new "testdir.json" "sample/" [])
  = (Ok (Some 0), Sample.index).
Proof. vm_compute. reflexivity. Qed.

Lemma getPostsSorted_ignores_attr_witness :
  ∃ σ', BlogPostMetaList.getPostsSorted (H := Utc.platform) (∅ : files) "title" false
          Cases.shelf = (Ok 0, σ') ∧
        BlogPostMetaList.arrays σ' !! 0
          = Some [Cases.titled "C" "2022-01-20"; Cases.titled "B" "2022-01-21";
                  Cases.titled "A" "2022-01-22"].
Proof.
  pose proof (getPostsSorted_ignores_attr (H := Utc.platform) (∅ : files) "title" false
                Cases.shelf) as [_ Hsort].
  destruct (Hsort 0 Cases.shelf
              [Cases.titled "C" "2022-01-20"; Cases.titled "A" "2022-01-22";
               Cases.titled "B" "2022-01-21"]) as (σ' & Hrun & _ & _ & Harr).
  - reflexivity.
  - reflexivity.
  - exists σ'. split; [exact Hrun|]. rewrite Harr; [reflexivity|].
    repeat constructor; eexists; reflexivity.
Defined.

(** C2, as stated, fails: a new index is not "empty and uninitialized". *)
Lemma new_index_not_untouched :
  ¬ untouched (BlogPostMetaList.new "testdir.json" "sample/" []).
Proof. intros [Hflag _]. discriminate Hflag. Qed.

Lemma new_index_initialization_witness :
  ∃ l σ', BlogPostMetaList.getPosts Sample.fs
            (BlogPostMetaList.new "testdir.json" "sample/" []) = (Ok (Some l), σ').
Proof.
  destruct (new_index_initialization Sample.fs "testdir.json" "sample/" [])
    as (_ & _ & _ & _ & Hrun).
  eapply Hrun.
  - vm_compute. reflexivity.
  - repeat constructor; eexists; reflexivity.
Defined.

(** C3, as stated, fails: after an ascending sorted retrieval the index of
    the sample directory no longer stores the handles in document order. *)
Lemma getPostsSorted_changes_stored_sequence :
  ¬ leaves_stored_sequence (H := Utc.platform) Sample.fs "created" false Sample.index.
Proof. unfold leaves_stored_sequence. vm_compute. intros [=]. Qed.

Lemma getPostsSorted_sorts_in_place_witness :
  ∃ σ', BlogPostMetaList.getPostsSorted (H := Utc.platform) Sample.fs "created" false Sample.index
          = (Ok 0, σ') ∧
        stored σ' = Some [Sample.h20; Sample.h21; Sample.h22].
Proof.
  destruct (getPostsSorted_sorts_in_place (H := Utc.platform) Sample.fs "created" false
              Sample.index 0 [Sample.h20; Sample.h22; Sample.h21] eq_refl eq_refl eq_refl)
    as (σ' & s & Hrun & _ & Hstored & _ & _ & _ & _ & Hord).
  exists σ'. split; [exact Hrun|].
  destruct Hord as [Hs _]; [repeat constructor; eexists; reflexivity|].
  rewrite Hstored, Hs. reflexivity.
Defined.

Lemma getPostsMostRecent_is_ascending_sort_witness :
  ∃ σ' s, BlogPostMetaList.getPostsMostRecent (H := Utc.platform) Sample.fs Sample.index
            = (Ok 0, σ') ∧
          BlogPostMetaList.arrays σ' !! 0 = Some s ∧ ascending s.
Proof.
  destruct (getPostsMostRecent_is_ascending_sort (H := Utc.platform) Sample.fs Sample.index)
    as [_ Hasc].
  destruct (Hasc 0 Sample.index [Sample.h20; Sample.h22; Sample.h21]) as (σ' & s & Hrun & Hs & _ & Hord).
  - reflexivity.
  - reflexivity.
  - repeat constructor; eexists; reflexivity.
  - exists σ', s. split_and!; [exact Hrun|exact Hs|exact Hord].
Defined.

(** ** BlogPost.equals *)

Section EqualsFacts.
Context `{Platform}.
Import BlogPost.

(** Whatever the body of the [try] does, [equals] returns a boolean. *)
Lemma equals_returns (this : t) (obj : arg) : ∃ b, equals this obj = Ok b.
Proof. unfold equals, try_catch. destruct (equals_body this obj); eauto. Qed.

(** A value without accessors makes the first call throw. *)
Lemma equals_body_value (this : t) (v : jsval) : equals_body this (ArgVal v) = Throw TypeError.
Proof. reflexivity. Qed.

(** With an accessor missing, the body throws or yields false, never true. *)
Lemma equals_body_missing (this : t) (o : object) :
  getTitle o = None ∨ getCreated o = None ∨ getUpdated o = None ∨
  getAuthor o = None ∨ getTags o = None ∨ getContent o = None →
  equals_body this (ArgObj o) ≠ Ok true.
Proof.
  unfold equals_body, call, mbind, result_bind.
  intros [Hm|[Hm|[Hm|[Hm|[Hm|Hm]]]]]; rewrite Hm;
    destruct (getTitle o) as [r|]; simpl; chain.
Qed.

(** C8. [A.equals(B)] returns a boolean for every [B] and never throws; the
    result is false when [B] is null, undefined or any other value without
    the accessors, and when [B] is an object that lacks one of them. *)
Theorem equals_never_throws (this : t) (obj : arg) :
  (∃ b, equals this obj = Ok b) ∧
  (∀ v, obj = ArgVal v → equals this obj = Ok false) ∧
  (∀ o, obj = ArgObj o →
     getTitle o = None ∨ getCreated o = None ∨ getUpdated o = None ∨
     getAuthor o = None ∨ getTags o = None ∨ getContent o = None →
     equals this obj = Ok false).
Proof.
  split_and!.
  - apply equals_returns.
  - intros v ->. reflexivity.
  - intros o -> Hmissing.
    pose proof (equals_body_missing this o Hmissing) as Hbody.
    unfold equals, try_catch.
    destruct (equals_body this (ArgObj o)) as [[|]|]; done.
Qed.

End EqualsFacts.

Lemma equals_never_throws_witness :
  BlogPost.equals (H := Utc.platform) Sample.post0 (BlogPost.ArgVal JNull) = Ok false ∧
  BlogPost.equals (H := Utc.platform) Sample.post0 (BlogPost.ArgObj Sample.post0_without_content)
    = Ok false.
Proof.
  destruct (equals_never_throws (H := Utc.platform) Sample.post0 (BlogPost.ArgVal JNull))
    as (_ & Hval & _).
  destruct (equals_never_throws (H := Utc.platform) Sample.post0
              (BlogPost.ArgObj Sample.post0_without_content)) as (_ & _ & Hobj).
  split.
  - apply (Hval JNull). reflexivity.
  - apply (Hobj Sample.post0_without_content); [reflexivity|].
    do 5 right. reflexivity.
Defined.

Lemma sample_post0_built :
  BlogPost.constructor (H := Utc.platform) (PostDoc (Sample.post_data "0" "2022-01-20" "2022-01-21"))
  = Ok Sample.post0.
Proof. vm_compute. reflexivity. Qed.

(** The check at the end of the test function of the source: the first post
    of the sample directory, fetched through its handle, equals [post0]. *)
Lemma sample_post0_equals :
  (post ← BlogPostMeta.getPost (H := Utc.platform) Sample.fs Sample.h20;
   BlogPost.equals (H := Utc.platform) Sample.post0 (BlogPost.ArgObj (BlogPost.as_object post)))
  = Ok true.
Proof. vm_compute. reflexivity. Qed.

(** ** Strings *)

Lemma append_cons c s t : String c s +:+ t = String c (s +:+ t).
Proof. reflexivity. Qed.

Lemma append_empty_l t : "" +:+ t = t.
Proof. reflexivity. Qed.

Lemma append_empty_r s : s +:+ "" = s.
Proof. induction s as [|c s IH]; [done|]. by rewrite append_cons, IH. Qed.

Lemma append_assoc s t u : (s +:+ t) +:+ u = s +:+ (t +:+ u).
Proof. induction s as [|c s IH]; [done|]. by rewrite !append_cons, IH. Qed.

Lemma length_append s t : String.length (s +:+ t) = String.length s + String.length t.
Proof. induction s as [|c s IH]; [done|]. rewrite append_cons. simpl. by rewrite IH. Qed.

Lemma append_neq_self s t : s ≠ "" → s +:+ t ≠ t.
Proof.
  intros Hs Heq. apply (f_equal String.length) in Heq. rewrite length_append in Heq.
  destruct s; [done|]. simpl in Heq. lia.
Qed.

Lemma append_eq_self_r s t : s +:+ t = s → t = "".
Proof.
  intros Heq. apply (f_equal String.length) in Heq. rewrite length_append in Heq.
  destruct t; [done|]. simpl in Heq. lia.
Qed.

Lemma prefix_append s t : String.prefix s (s +:+ t) = true.
Proof.
  induction s as [|c s IH]; [by destruct t|].
  rewrite append_cons. simpl. by destruct (ascii_dec c c).
Qed.

Lemma prefix_cons a s b t :
  String.prefix (String a s) (String b t) = if ascii_dec a b then String.prefix s t else false.
Proof. reflexivity. Qed.

(** ** Counting occurrences of a tag *)

Lemma count_sub_cons pat c s :
  count_sub pat (String c s) = (if String.prefix pat (String c s) then 1 else 0) + count_sub pat s.
Proof. reflexivity. Qed.

Section CountTag.
Context (pat' : string).

Lemma count_sub_empty : count_sub (String "<" pat') "" = 0.
Proof. reflexivity. Qed.

(** Text without ["<"] contains no occurrence and does not start one. *)
Lemma count_sub_text a t :
  no_lt a = true → count_sub (String "<" pat') (a +:+ t) = count_sub (String "<" pat') t.
Proof.
  induction a as [|c a IH]; [done|]. simpl no_lt. intros [Hc Ha]%andb_true_iff.
  rewrite append_cons, count_sub_cons, prefix_cons.
  destruct (ascii_dec "<" c) as [<-|_]; [done|]. by rewrite IH.
Qed.

(** An occurrence at the front, when the tag cannot overlap itself. *)
Lemma count_sub_tag t :
  no_lt pat' = true →
  count_sub (String "<" pat') (String "<" pat' +:+ t) = S (count_sub (String "<" pat') t).
Proof.
  intros Hp. rewrite append_cons, count_sub_cons.
  change (String "<" (pat' +:+ t)) with (String "<" pat' +:+ t).
  by rewrite prefix_append, count_sub_text.
Qed.

End CountTag.

(** A closing paragraph tag is not an occurrence of an opening one. *)
Lemma count_sub_close pat'' t :
  count_sub (String "<" (String "p" pat'')) ("</p>" +:+ t)
  = count_sub (String "<" (String "p" pat'')) t.
Proof.
  change ("</p>" +:+ t) with (String "<" (String "/" (String "p" (String ">" t)))).
  rewrite !count_sub_cons, !prefix_cons. simpl. reflexivity.
Qed.

(** ** The timestamp renderer *)

Lemma timestamp_open_cons :
  timestamp_open
  = String "<" (String "p" (" class=" +:+ dq +:+ "timestamp" +:+ dq +:+ ">")).
Proof. reflexivity. Qed.

Lemma timestamp_open_append_nonempty s : timestamp_open +:+ s ≠ "".
Proof. rewrite timestamp_open_cons. done. Qed.

Section TimestampFacts.
Context `{Platform}.

(** C7. For a post with valid dates, the renderer emits the second
    ("Updated on") paragraph exactly when the time values of [updated] and
    [created] differ; when they are the same the output is the single
    "Written by" paragraph.  On text without markup the number of timestamp
    paragraphs in the output is one in the first case and two in the
    second. *)
Theorem getTimestampHtml_paragraphs (post : BlogPost.t) (c u : Z) :
  BlogPost.created post = Some c → BlogPost.updated post = Some u →
  let first := timestamp_open +:+ "Written by " +:+ BlogPost.author post +:+ " on " +:+
               toLocaleString (Some c) +:+ "</p>" in
  let second := timestamp_open +:+ "Updated on " +:+ toLocaleString (Some u) +:+ "</p>" in
  (u ≠ c ↔ getTimestampHtml post = first +:+ second) ∧
  (u = c ↔ getTimestampHtml post = first) ∧
  (no_lt (BlogPost.author post) = true →
   no_lt (toLocaleString (Some c)) = true →
   no_lt (toLocaleString (Some u)) = true →
   count_sub timestamp_open (getTimestampHtml post) = if (c =? u)%Z then 1 else 2).
Proof.
  intros Hc Hu first second.
  assert (getTimestampHtml post = first +:+ (if (c =? u)%Z then "" else second)) as Hout.
  { unfold getTimestampHtml. rewrite Hc, Hu. simpl. by destruct (c =? u)%Z. }
  rewrite Hout. split_and!.
  - destruct (Z.eqb_spec c u) as [->|Hne]; split; try done.
    intros Heq%(inj (String.app first)). symmetry in Heq.
    by apply timestamp_open_append_nonempty in Heq.
  - destruct (Z.eqb_spec c u) as [->|Hne]; split; try done.
    + intros _. apply append_empty_r.
    + intros Heq%append_eq_self_r. by apply timestamp_open_append_nonempty in Heq.
  - intros Hauthor Hfc Hfu. unfold first, second.
    rewrite !append_assoc, timestamp_open_cons.
    rewrite count_sub_tag by reflexivity.
    rewrite (count_sub_text _ "Written by ") by reflexivity.
    rewrite (count_sub_text _ (BlogPost.author post)) by done.
    rewrite (count_sub_text _ " on ") by reflexivity.
    rewrite (count_sub_text _ (toLocaleString (Some c))) by done.
    rewrite count_sub_close.
    destruct (c =? u)%Z; [reflexivity|].
    rewrite count_sub_tag by reflexivity.
    rewrite (count_sub_text _ "Updated on ") by reflexivity.
    rewrite (count_sub_text _ (toLocaleString (Some u))) by done.
    rewrite <- (append_empty_r "</p>"), count_sub_close. reflexivity.
Qed.

End TimestampFacts.

Lemma getTimestampHtml_paragraphs_witness :
  count_sub timestamp_open (getTimestampHtml (H := Utc.platform) Sample.post0) = 2 ∧
  count_sub timestamp_open (getTimestampHtml (H := Utc.platform) Sample.post_never_updated) = 1.
Proof.
  split.
  - apply (getTimestampHtml_paragraphs (H := Utc.platform) Sample.post0
             1642636800000 1642723200000 eq_refl eq_refl); vm_compute; reflexivity.
  - apply (getTimestampHtml_paragraphs (H := Utc.platform) Sample.post_never_updated
             1642636800000 1642636800000 eq_refl eq_refl); vm_compute; reflexivity.
Defined.

(** ** Listing the posts into an element *)

Section ListingFacts.
Context `{Platform} (fs : files).

(** The loop appends the rendering of each handle, in order, to the string
    form of what [content] held before. *)
Lemma for_in_postList_appends postList content r :
  for_in_postList fs postList content = Ok r →
  ∃ htmls,
    Forall2 (λ m html, getPostHtml fs (Some m) false = Ok html) postList htmls ∧
    ToString r = ToString content +:+ concat_html htmls.
Proof.
  revert content. induction postList as [|m postList IH]; intros content.
  - intros [= <-]. exists []. split; [constructor|].
    unfold concat_html. simpl. by rewrite append_empty_r.
  - change (for_in_postList fs (m :: postList) content)
      with (html ← getPostHtml fs (Some m) false;
            for_in_postList fs postList (plus_assign content html)).
    unfold mbind, result_bind.
    destruct (getPostHtml fs (Some m) false) as [html|] eqn:Hm; [|done].
    intros (htmls & Hall & ->)%IH. exists (html :: htmls). split; [by constructor|].
    unfold concat_html. simpl. by rewrite append_assoc.
Qed.

(** C4 (what the code does). Whenever [getBlogPosts] completes, the string
    written to the element is the text "[object Promise]" followed by the
    renderings of the sorted handles, in order: [content] starts as the
    promise returned by [getPostFromUrl()], which is never awaited.  The
    written string is therefore never the bare concatenation. *)
Theorem getBlogPosts_writes_promise_text (h : store) (dom dom' : page)
    (domId directory file : string) (maxPosts : Z) (sortBy : string) (reverse : bool) :
  getBlogPosts fs h dom domId directory file maxPosts sortBy reverse = Ok dom' →
  ∃ l σ postList htmls,
    BlogPostMetaList.getPostsSorted fs sortBy reverse (BlogPostMetaList.new file directory h)
      = (Ok l, σ) ∧
    BlogPostMetaList.arrays σ !! l = Some postList ∧
    Forall2 (λ m html, getPostHtml fs (Some m) false = Ok html) postList htmls ∧
    dom' = <[domId := "[object Promise]" +:+ concat_html htmls]> dom ∧
    dom' !! domId ≠ Some (concat_html htmls).
Proof.
  unfold getBlogPosts.
  destruct (BlogPostMetaList.getPostsSorted fs sortBy reverse _) as [[l|e] σ] eqn:Hsorted;
    [|done].
  unfold BlogPostMetaList.read, mbind, result_bind.
  destruct (BlogPostMetaList.arrays σ !! l) as [postList|] eqn:Hl; simpl; [|done].
  destruct (for_in_postList fs postList (CPromise getPostFromUrl)) as [r|] eqn:Hloop;
    [|done].
  apply for_in_postList_appends in Hloop as (htmls & Hall & Hr). rewrite Hr. simpl.
  unfold set_innerHTML. destruct (dom !! domId); [|done].
  intros [= <-]. exists l, σ, postList, htmls. split_and!; try done.
  rewrite lookup_insert_eq. intros [= Heq]. by apply append_neq_self in Heq.
Qed.

End ListingFacts.

Lemma getBlogPosts_writes_promise_text_witness :
  ∃ htmls,
    Sample.listed = <["blog" := "[object Promise]" +:+ concat_html htmls]> Sample.dom ∧
    Sample.listed !! "blog" ≠ Some (concat_html htmls).
Proof.
  destruct (getBlogPosts_writes_promise_text (H := Utc.platform) Sample.fs [] Sample.dom
              Sample.listed "blog" "sample/" "testdir.json" 5 "created" true)
    as (l & σ & postList & htmls & _ & _ & _ & Hdom & Hne).
  - vm_compute. reflexivity.
  - exists htmls. split; [exact Hdom|exact Hne].
Defined.

(** ** The latest post, truncated *)

Lemma substring_prefix (s : string) (k : nat) :
  k ≤ String.length s →
  ∃ t, s = String.substring 0 k s +:+ t ∧ String.length (String.substring 0 k s) = k.
Proof.
  revert k. induction s as [|c s IH]; intros [|k] Hk; simpl in *.
  - by exists "".
  - lia.
  - by exists (String c s).
  - destruct (IH k) as (t & Ht & Hlen); [lia|].
    exists t. rewrite append_cons, <- Ht. by rewrite Hlen.
Qed.

Lemma substring_of_append (a b : string) :
  String.substring 0 (String.length a) (a +:+ b) = a.
Proof.
  induction a as [|c a IH].
  - rewrite append_empty_l. by destruct b.
  - rewrite append_cons. simpl. by rewrite IH.
Qed.

(** The index found by [lastIndexOf(" ")]: the last space, with only
    non-spaces after it; or the initial value when there is no space. *)
Lemma lastIndexOf_space_from_spec (s : string) (i found : Z) :
  (no_space s = true ∧ Str.lastIndexOf_space_from i s found = found) ∨
  (∃ a w, s = a +:+ String Str.space w ∧ no_space w = true ∧
          Str.lastIndexOf_space_from i s found = (i + Z.of_nat (String.length a))%Z).
Proof.
  revert i found. induction s as [|c s IH]; intros i found; simpl.
  - by left.
  - destruct (IH (i + 1)%Z (if Ascii.eqb c Str.space then i else found))
      as [[Hs Hidx]|(a & w & -> & Hw & Hidx)].
    + rewrite Hidx, Hs. destruct (Ascii.eqb_spec c Str.space) as [->|Hc]; simpl.
      * right. exists "", s. rewrite append_empty_l. split_and!; [done..|]. simpl. lia.
      * by left.
    + right. exists (String c a), w. rewrite append_cons. split_and!; [done..|].
      rewrite Hidx. simpl String.length. lia.
Qed.

Lemma lastIndexOf_space_spec (s : string) :
  (no_space s = true ∧ Str.lastIndexOf_space s = (-1)%Z) ∨
  (∃ a w, s = a +:+ String Str.space w ∧ no_space w = true ∧
          Str.lastIndexOf_space s = Z.of_nat (String.length a)).
Proof.
  destruct (lastIndexOf_space_from_spec s 0 (-1)) as [?|(a & w & ? & ? & ?)]; [by left|].
  right. by exists a, w.
Qed.

(** The two truncation steps of [latestBlogPost] on a text longer than the
    limit: what is kept is a prefix of at most [maxChars] characters that
    ends just before the last space within the limit, so that only one
    unfinished word is dropped; with no space within the limit, nothing is
    kept. *)
Lemma truncation_backs_off_to_space (r : string) (maxChars : Z) :
  (0 <= maxChars < Z.of_nat (String.length r))%Z →
  let content := Str.substr0 r maxChars in
  let cut := if (Z.of_nat (String.length content) =? maxChars)%Z
             then Str.substr0 content
                    (Z.min (Z.of_nat (String.length content)) (Str.lastIndexOf_space content))
             else content in
  (Z.of_nat (String.length cut) <= maxChars)%Z ∧
  ((∃ w rest, r = cut +:+ String Str.space w +:+ rest ∧ no_space w = true ∧
              (Z.of_nat (String.length cut) + 1 + Z.of_nat (String.length w) = maxChars)%Z) ∨
   (cut = "" ∧ no_space content = true)).
Proof.
  intros Hn content cut.
  assert (∃ t, r = content +:+ t ∧ Z.of_nat (String.length content) = maxChars)
    as (t & Hr & Hlen).
  { unfold content, Str.substr0. destruct (Z.leb_spec maxChars 0) as [Hle|Hgt].
    - exists r. split; [done|]. simpl. lia.
    - destruct (substring_prefix r (Z.to_nat maxChars)) as (t & Ht & Hl); [lia|].
      exists t. split; [done|]. rewrite Hl. lia. }
  unfold cut. rewrite Hlen, Z.eqb_refl. clear cut.
  destruct (lastIndexOf_space_spec content) as [[Hns ->]|(a & w & Hc & Hw & ->)].
  - assert (Z.min maxChars (-1) = (-1)%Z) as -> by lia. simpl. split; [lia|]. by right.
  - assert (Z.of_nat (String.length a) <= maxChars)%Z as Hle.
    { rewrite <- Hlen, Hc, length_append. lia. }
    rewrite Z.min_r by done.
    assert (Str.substr0 content (Z.of_nat (String.length a)) = a) as ->.
    { unfold Str.substr0. destruct (Z.leb_spec (Z.of_nat (String.length a)) 0) as [H0|H0].
      - destruct a; [done|]. simpl in H0. lia.
      - rewrite Nat2Z.id, Hc. apply substring_of_append. }
    split; [done|]. left. exists w, t. split_and!; [|done|].
    + by rewrite Hr, Hc, append_assoc.
    + rewrite <- Hlen, Hc, length_append. simpl. lia.
Qed.

(** [latestBlogPost] on a rendering longer than the limit: the element
    receives the rendering cut back to the last space within the limit,
    followed by the link to the id of the first handle with its first
    ".json" removed. *)
Lemma latestBlogPost_truncates `{Platform} (fs : files) (h : store) (dom : page)
    (domId directory file : string) (maxChars : Z) (contentOnly : bool)
    (l : loc) (σ : BlogPostMetaList.state) (m : BlogPostMeta.t)
    (others : list BlogPostMeta.t) (r old : string) :
  BlogPostMetaList.getPostsSorted fs "created" true (BlogPostMetaList.new file directory h)
    = (Ok l, σ) →
  BlogPostMetaList.arrays σ !! l = Some (m :: others) →
  getPostHtml fs (Some m) contentOnly = Ok r →
  dom !! domId = Some old →
  (0 <= maxChars < Z.of_nat (String.length r))%Z →
  ∃ cut,
    latestBlogPost fs h dom domId directory file maxChars contentOnly
      = Ok (<[domId := cut +:+ link_to (Str.replace_first ".json" "" (BlogPostMeta.id m))]> dom) ∧
    (Z.of_nat (String.length cut) <= maxChars)%Z ∧
    ((∃ w rest, r = cut +:+ String Str.space w +:+ rest ∧ no_space w = true ∧
                (Z.of_nat (String.length cut) + 1 + Z.of_nat (String.length w) = maxChars)%Z) ∨
     (cut = "" ∧ no_space (Str.substr0 r maxChars) = true)).
Proof.
  intros Hsorted Hl Hhtml Hdom Hn.
  destruct (truncation_backs_off_to_space r maxChars Hn) as [Hlen Hcut].
  eexists. split; [|split; [exact Hlen|exact Hcut]].
  unfold latestBlogPost. rewrite Hsorted.
  unfold BlogPostMetaList.read. rewrite Hl.
  unfold mbind, result_bind. cbn [fst].
  change ((m :: others) !! 0) with (Some m). rewrite Hhtml.
  assert ((maxChars >=? 0)%Z = true) as -> by lia.
  rewrite append_empty_l.
  unfold set_innerHTML. rewrite Hdom. reflexivity.
Qed.

(** C5 (the code at an id with ".json" in the middle). For the post file
    "notes.json.v2.json" and a limit of 145 characters, which falls inside
    the word "fox", the text is cut after "brown" and the link is appended,
    but the link names "notes.v2.json": the first ".json" of the id was
    removed, not the suffix, which would give "notes.json.v2". *)
Theorem latestBlogPost_removes_first_json :
  latestBlogPost (H := Utc.platform) Sample.notes_fs [] Sample.dom "blog" "notes/" "index.json"
    145 true
  = Ok (<["blog" := Sample.notes_cut +:+ link_to "notes.v2.json"]> Sample.dom) ∧
  strip_json_suffix "notes.json.v2.json" = "notes.json.v2" ∧
  link_to "notes.v2.json" ≠ link_to (strip_json_suffix "notes.json.v2.json").
Proof.
  split_and!.
  - vm_compute. reflexivity.
  - reflexivity.
  - vm_compute. intros [=].
Qed.

(** * Further properties *)

(** ** Tags: split and join *)

Lemma split_comma_nonempty s : Str.split_comma s ≠ [].
Proof.
  destruct s as [|c s]; simpl; [done|].
  destruct (Ascii.eqb c Str.comma); [done|]. by destruct (Str.split_comma s).
Qed.

Lemma join_cons sep w ws :
  ws ≠ [] → Str.join sep (w :: ws) = w +:+ sep +:+ Str.join sep ws.
Proof. by destruct ws. Qed.

Lemma split_comma_join s : Str.join "," (Str.split_comma s) = s.
Proof.
  induction s as [|c s IH]; simpl; [done|].
  destruct (Ascii.eqb_spec c Str.comma) as [->|Hc].
  - rewrite join_cons by apply split_comma_nonempty. by rewrite IH.
  - destruct (Str.split_comma s) as [|w ws] eqn:Hs; [by apply split_comma_nonempty in Hs|].
    destruct ws as [|w' ws].
    + simpl in *. by rewrite IH.
    + rewrite join_cons by done. rewrite join_cons in IH by done.
      by rewrite append_cons, IH.
Qed.

Lemma split_comma_no_comma s : Forall (λ w, no_comma w = true) (Str.split_comma s).
Proof.
  induction s as [|c s IH]; simpl; [by repeat constructor|].
  destruct (Ascii.eqb_spec c Str.comma) as [->|Hc]; [by constructor|].
  assert (negb (Ascii.eqb c Str.comma) = true) as Hneq.
  { by destruct (Ascii.eqb_spec c Str.comma). }
  destruct (Str.split_comma s) as [|w ws].
  - constructor; [|constructor]. simpl. by rewrite Hneq.
  - apply Forall_cons in IH as [Hw Hws]. constructor; [|done].
    simpl. by rewrite Hw, Hneq.
Qed.

(** X1. A post document with tag text [s] always gives a post; its tags are
    the pieces of [s] between the commas: joined by commas they give [s]
    back, none contains a comma, and there is at least one (the empty text
    gives the single empty tag).  Title, author and content are those of the
    document. *)
Theorem constructor_tags_round_trip `{Platform} (d : PostData) (s : string) :
  pd_tags d = Some s →
  ∃ p, BlogPost.constructor (PostDoc d) = Ok p ∧
       Str.join "," (BlogPost.tags p) = s ∧
       Forall (λ w, no_comma w = true) (BlogPost.tags p) ∧
       BlogPost.tags p ≠ [] ∧
       BlogPost.title p = pd_title d ∧ BlogPost.author p = pd_author d ∧
       BlogPost.content p = pd_content d.
Proof.
  intros Hs. unfold BlogPost.constructor, split_tags. rewrite Hs. simpl.
  eexists. split; [reflexivity|]. simpl. split_and!; try done.
  - apply split_comma_join.
  - apply split_comma_no_comma.
  - apply split_comma_nonempty.
Qed.

Lemma constructor_tags_round_trip_witness :
  ∃ p, BlogPost.constructor (H := Utc.platform) (PostDoc Sample.notes_data) = Ok p ∧
       Str.join "," (BlogPost.tags p) = "notes".
Proof.
  destruct (constructor_tags_round_trip (H := Utc.platform) Sample.notes_data "notes" eq_refl)
    as (p & Hp & Hjoin & _).
  exists p. split; [exact Hp|exact Hjoin].
Defined.

(** X2. Resolving a handle fails in exactly two ways: with a fetch error
    when there is no file at the path of the handle, and with a type error
    when the file is not a post document or has no tags; in every other
    case it gives a post. *)
Theorem getPost_outcomes `{Platform} (fs : files) (m : BlogPostMeta.t) :
  (BlogPostMeta.getPost fs m = Throw FetchError ↔ fs !! BlogPostMeta.path m = None) ∧
  (BlogPostMeta.getPost fs m = Throw TypeError ↔
     (∃ posts, fs !! BlogPostMeta.path m = Some (MetaDoc posts)) ∨
     (∃ d, fs !! BlogPostMeta.path m = Some (PostDoc d) ∧ pd_tags d = None)) ∧
  ((∃ p, BlogPostMeta.getPost fs m = Ok p) ↔
     ∃ d s, fs !! BlogPostMeta.path m = Some (PostDoc d) ∧ pd_tags d = Some s).
Proof.
  unfold BlogPostMeta.getPost, getJsonData, BlogPost.constructor, split_tags, mbind, result_bind.
  destruct (fs !! BlogPostMeta.path m) as [[posts|d]|]; simpl.
  - split_and!; split; try done.
    + intros _. left. by exists posts.
    + by intros [p Hp].
    + by intros (d & s & Hd & _).
  - destruct (pd_tags d) as [s|] eqn:Hd; simpl; split_and!; split; try done.
    + intros [[posts Hp]|(d' & [= <-] & Hd')]; congruence.
    + intros _. by exists d, s.
    + intros _. by eexists.
    + intros _. right. by exists d.
    + by intros [p Hp].
    + intros (d' & s & [= <-] & Hd'). congruence.
  - split_and!; split; try done.
    + by intros [[posts Hp]|(d & Hd & _)].
    + by intros [p Hp].
    + by intros (d & s & Hd & _).
Qed.

(** ** BlogPost.equals between posts *)

Section EqualsBetweenPosts.
Context `{Platform}.
Import BlogPost.

Lemma strict_eq_text a b : strict_eq (JStr a) (JStr b) = true ↔ a = b.
Proof. simpl. apply String.eqb_eq. Qed.

Lemma strict_eq_time_value t t' :
  strict_eq (time_value t) (time_value t') = true ↔ ∃ n, t = Some n ∧ t' = Some n.
Proof.
  destruct t as [n|], t' as [n'|]; simpl.
  - rewrite Z.eqb_eq. split; [intros ->; by exists n'|intros (k & [= ->] & [= ->]); done].
  - split; [done|]. by intros (k & _ & Hk).
  - split; [done|]. by intros (k & Hk & _).
  - split; [done|]. by intros (k & Hk & _).
Qed.

Lemma strict_eq_text_value c c' :
  strict_eq (text_value c) (text_value c') = true ↔ c = c'.
Proof.
  destruct c as [a|], c' as [b|]; simpl; try (split; done).
  rewrite String.eqb_eq. split; [by intros ->|by intros [= ->]].
Qed.

(** The body of [equals] on a post, test by test. *)
Lemma equals_body_post (this other : t) :
  equals_body this (ArgObj (as_object other)) =
    and_then (strict_eq (JStr (title this)) (JStr (title other)))
   (and_then (strict_eq (time_value (created this)) (time_value (created other)))
   (and_then (strict_eq (time_value (updated this)) (time_value (updated other)))
   (and_then (strict_eq (JStr (author this)) (JStr (author other)))
      (tj ← JSON_stringify (JArr (tags this));
       oj ← JSON_stringify (JArr (tags other));
       and_then (strict_eq_opt tj oj)
         (Ok (strict_eq (text_value (content this)) (text_value (content other)))))))).
Proof.
  unfold equals_body, call, as_object, valueOf, mbind, result_bind. simpl.
  by destruct (created other), (updated other).
Qed.

(** X3. Two posts are equal for [equals] exactly when title, author and
    content are the same (the content the same text, or absent in both),
    created and updated are valid dates with the same time value, and
    [JSON.stringify] gives the same result on both tag arrays. *)
Theorem equals_posts_iff (this other : t) :
  equals this (ArgObj (as_object other)) = Ok true ↔
    title this = title other ∧
    (∃ c, created this = Some c ∧ created other = Some c) ∧
    (∃ u, updated this = Some u ∧ updated other = Some u) ∧
    author this = author other ∧
    (∃ tj oj, JSON_stringify (JArr (tags this)) = Ok tj ∧
              JSON_stringify (JArr (tags other)) = Ok oj ∧ strict_eq_opt tj oj = true) ∧
    content this = content other.
Proof.
  unfold equals. rewrite equals_body_post.
  rewrite <- strict_eq_text, <- !strict_eq_time_value, <- (strict_eq_text (author this)),
    <- strict_eq_text_value.
  unfold mbind, result_bind.
  destruct (strict_eq (JStr (title this)) (JStr (title other)));
    destruct (strict_eq (time_value (created this)) (time_value (created other)));
    destruct (strict_eq (time_value (updated this)) (time_value (updated other)));
    destruct (strict_eq (JStr (author this)) (JStr (author other)));
    destruct (JSON_stringify (JArr (tags this))) as [tj|];
    destruct (JSON_stringify (JArr (tags other))) as [oj|];
    cbn -[strict_eq]; try (split; [done|]; intros (? & ? & ? & ? & (? & ? & ? & ? & ?) & ?); done).
  destruct (strict_eq_opt tj oj) eqn:Hj; cbn -[strict_eq].
  - destruct (strict_eq (text_value (content this)) (text_value (content other)));
      split; try done.
    + intros _. split_and!; try done. by exists tj, oj.
    + by intros (_ & _ & _ & _ & _ & ?).
  - split; [done|]. intros (_ & _ & _ & _ & (tj' & oj' & [= <-] & [= <-] & Hj') & _).
    congruence.
Qed.

(** X4. On posts, [equals] is symmetric. *)
Theorem equals_posts_symmetric (a b : t) :
  equals a (ArgObj (as_object b)) = equals b (ArgObj (as_object a)).
Proof.
  assert (∀ x y, equals x (ArgObj (as_object y)) = Ok true →
                 equals y (ArgObj (as_object x)) = Ok true) as Hsym.
  { intros x y. rewrite !equals_posts_iff.
    intros (Ht & (c & Hc & Hc') & (u & Hu & Hu') & Ha & (tj & oj & Htj & Hoj & Hj) & Hco).
    split_and!; try done; [by exists c|by exists u|].
    exists oj, tj. split_and!; try done.
    destruct tj, oj; simpl in *; try done. by rewrite String.eqb_sym. }
  destruct (equals_returns a (ArgObj (as_object b))) as [[|] Hab],
           (equals_returns b (ArgObj (as_object a))) as [[|] Hba]; try congruence.
  - apply Hsym in Hab. congruence.
  - apply Hsym in Hba. congruence.
Qed.

(** X5. A post whose created or updated date is invalid is equal to
    nothing, not even to itself: every comparison returns false. *)
Theorem equals_invalid_date (this : t) (obj : arg) :
  created this = None ∨ updated this = None → equals this obj = Ok false.
Proof.
  intros Hinvalid.
  assert (equals_body this obj ≠ Ok true) as Hbody.
  { unfold equals_body, call, mbind, result_bind.
    destruct Hinvalid as [Hd|Hd]; rewrite Hd; simpl; destruct obj as [v|o]; try done;
      destruct (getTitle o) as [r|]; simpl; chain. }
  unfold equals, try_catch. by destruct (equals_body this obj) as [[|]|].
Qed.

End EqualsBetweenPosts.

(** ** The body renderer *)

Lemma replace_newlines_append rep a b :
  Str.replace_newlines rep (a +:+ b)
  = Str.replace_newlines rep a +:+ Str.replace_newlines rep b.
Proof.
  induction a as [|c a IH]; [done|]. rewrite append_cons. simpl.
  destruct (Ascii.eqb c Str.newline); by rewrite IH, ?append_assoc.
Qed.

Lemma no_newline_append a b : no_newline (a +:+ b) = no_newline a && no_newline b.
Proof.
  induction a as [|c a IH]; [done|]. rewrite append_cons. simpl.
  by rewrite IH, andb_assoc.
Qed.

Lemma replace_newlines_no_newline rep s :
  no_newline rep = true → no_newline (Str.replace_newlines rep s) = true.
Proof.
  intros Hrep. induction s as [|c s IH]; [done|]. simpl.
  destruct (Ascii.eqb c Str.newline) eqn:Hc.
  - by rewrite no_newline_append, Hrep, IH.
  - simpl. by rewrite Hc, IH.
Qed.

Lemma replace_newlines_id rep s :
  no_newline s = true → Str.replace_newlines rep s = s.
Proof.
  induction s as [|c s IH]; [done|]. simpl. intros [Hc Hs]%andb_true_iff.
  destruct (Ascii.eqb c Str.newline); [done|]. by rewrite IH.
Qed.

(** X6. The body of a content made of two parts separated by a newline is
    the body of the first part followed by the body of the second: every
    line becomes a paragraph of its own. *)
Theorem getBodyHtml_splits_at_newline (p pa pb : BlogPost.t) (ca cb : string) :
  BlogPost.content pa = Some ca → BlogPost.content pb = Some cb →
  BlogPost.content p = Some (ca +:+ String Str.newline cb) →
  ∃ ha hb, getBodyHtml pa = Ok ha ∧ getBodyHtml pb = Ok hb ∧
           getBodyHtml p = Ok (ha +:+ hb).
Proof.
  intros Ha Hb Hp. unfold getBodyHtml. rewrite Ha, Hb, Hp.
  eexists _, _. split_and!; [done|done|]. f_equal.
  rewrite replace_newlines_append.
  change (Str.replace_newlines "</p><p>" (String Str.newline cb))
    with ("</p><p>" +:+ Str.replace_newlines "</p><p>" cb).
  rewrite !append_assoc. reflexivity.
Qed.

(** X7. The body of a post with a content is returned and never contains a
    newline, and a content without newline is rendered as the one paragraph
    that wraps it, character for character (markup in the content
    included); on a post without content the renderer throws a TypeError. *)
Theorem getBodyHtml_no_newline (p : BlogPost.t) :
  (∀ c, BlogPost.content p = Some c →
     ∃ html, getBodyHtml p = Ok html ∧ no_newline html = true ∧
             (no_newline c = true → html = "<p>" +:+ c +:+ "</p>")) ∧
  (BlogPost.content p = None ↔ getBodyHtml p = Throw TypeError).
Proof.
  unfold getBodyHtml. split.
  - intros c ->. eexists. split_and!; [done| |].
    + rewrite !no_newline_append, replace_newlines_no_newline; done.
    + intros Hc. by rewrite replace_newlines_id.
  - by destruct (BlogPost.content p).
Qed.

(** ** The index: caching, failure, repeated sorting *)

Lemma forEach_push_fails directory data acc e :
  BlogPostMetaList.forEach_push directory data acc = Throw e →
  e = TypeError ∧ Exists (λ x, me_tags x = None) data.
Proof.
  revert acc. induction data as [|x data IH]; intros acc; simpl; [done|].
  unfold BlogPostMeta.constructor, split_tags, mbind, result_bind.
  destruct (me_tags x) as [s|] eqn:Hx.
  - intros [-> Hex]%IH. split; [done|]. by apply Exists_cons_tl.
  - intros [= <-]. split; [done|]. by apply Exists_cons_hd.
Qed.

Lemma forEach_push_no_tags directory data acc :
  Exists (λ x, me_tags x = None) data →
  BlogPostMetaList.forEach_push directory data acc = Throw TypeError.
Proof.
  intros Hex. revert acc. induction Hex as [x data Hx|x data _ IH]; intros acc; simpl;
    unfold BlogPostMeta.constructor, split_tags, mbind, result_bind.
  - by rewrite Hx.
  - destruct (me_tags x); [apply IH|done].
Qed.

Lemma constructor_path_joined directory x m :
  BlogPostMeta.constructor directory x = Ok m → path_joined directory m.
Proof.
  unfold BlogPostMeta.constructor, split_tags, mbind, result_bind.
  destruct (me_tags x); [|done]. by intros [= <-].
Qed.

Lemma reflects_path_joined directory entries a :
  reflects directory entries a → Forall (path_joined directory) a.
Proof.
  induction 1 as [|x m entries a Hm _ IH]; constructor; [|done].
  by eapply constructor_path_joined.
Qed.

Section IndexMore.
Context `{Platform} (fs : files).
Import BlogPostMetaList.

(** X8. Once a retrieval on a new index has succeeded, every later
    retrieval returns the same array and changes nothing, whatever the files
    have become: the metadata document is fetched once. *)
Theorem getPosts_cached (file directory : string) (h : store) (l : loc) (σ' : state) :
  getPosts fs (new file directory h) = (Ok (Some l), σ') →
  ∀ fs', getPosts fs' σ' = (Ok (Some l), σ').
Proof.
  rewrite getPosts_new.
  destruct (fs !! (directory +:+ file)) as [[entries|d]|]; try done.
  destruct (convertToMetadataObject directory entries) as [a|]; [|done].
  intros [= <- <-] fs'. by apply getPosts_initialized.
Qed.

(** Retrieval on an index whose [init()] has failed: the stored promise is
    rejected, awaiting it throws its error again; nothing is fetched and
    nothing changes. *)
Lemma getPosts_rejected (σ : state) (e : error) :
  initialized (this σ) = true → posts (this σ) = InitRejected e →
  getPosts fs σ = (Throw e, σ).
Proof.
  intros Hi Hp. unfold getPosts, mbind, M_bind, get_this, lift; simpl.
  by rewrite Hi, Hp.
Qed.

(** X9. A retrieval on a new index fails in these cases, and in each of
    them: with a fetch error when the metadata file is missing, with a type
    error when the file has no [posts] array and when one of its entries has
    no tags (one such entry makes the whole retrieval fail).  After a
    failure the flag is set, no array is stored and the field [posts] holds
    the rejected promise of [init()], so that every later retrieval throws
    the same error again, whatever the files have become: the metadata
    document is not fetched a second time. *)
Theorem getPosts_failure (file directory : string) (h : store) :
  (∀ e σ', getPosts fs (new file directory h) = (Throw e, σ') →
     σ' = failed_index file directory h e ∧
     initialized (this σ') = true ∧ posts (this σ') = InitRejected e ∧
     arrays σ' = h ∧ stored σ' = None ∧
     ((e = FetchError ∧ fs !! (directory +:+ file) = None) ∨
      (e = TypeError ∧
         ((∃ d, fs !! (directory +:+ file) = Some (PostDoc d)) ∨
          (∃ entries, fs !! (directory +:+ file) = Some (MetaDoc entries) ∧
                      Exists (λ x, me_tags x = None) entries)))) ∧
     (∀ fs', getPosts fs' σ' = (Throw e, σ') ∧
             ∀ attr reverse, getPostsSorted fs' attr reverse σ' = (Throw e, σ'))) ∧
  (fs !! (directory +:+ file) = None →
   getPosts fs (new file directory h)
   = (Throw FetchError, failed_index file directory h FetchError)) ∧
  (∀ d, fs !! (directory +:+ file) = Some (PostDoc d) →
   getPosts fs (new file directory h)
   = (Throw TypeError, failed_index file directory h TypeError)) ∧
  (∀ entries, fs !! (directory +:+ file) = Some (MetaDoc entries) →
   Exists (λ x, me_tags x = None) entries →
   getPosts fs (new file directory h)
   = (Throw TypeError, failed_index file directory h TypeError)).
Proof.
  split_and!.
  - intros e σ'.
    assert (∀ fs', getPosts fs' (failed_index file directory h e)
                   = (Throw e, failed_index file directory h e)) as Hagain.
    { intros fs'. unfold getPosts, mbind, M_bind, get_this, lift. reflexivity. }
    assert (∀ fs', getPosts fs' (failed_index file directory h e)
                   = (Throw e, failed_index file directory h e) ∧
                   ∀ attr reverse,
                     getPostsSorted fs' attr reverse (failed_index file directory h e)
                     = (Throw e, failed_index file directory h e)) as Hlater.
    { intros fs'. split; [apply Hagain|]. intros attr reverse.
      unfold getPostsSorted, mbind, M_bind at 1. by rewrite Hagain. }
    rewrite getPosts_new.
    destruct (fs !! (directory +:+ file)) as [[entries|d]|] eqn:Hfs.
    + destruct (convertToMetadataObject directory entries) as [a|e'] eqn:Hc; [done|].
      intros [= <- <-]. apply forEach_push_fails in Hc as [-> Hex].
      split_and!; try done. right. split; [done|]. right. by exists entries.
    + intros [= <- <-]. split_and!; try done. right. split; [done|]. left. by exists d.
    + intros [= <- <-]. split_and!; try done. by left.
  - intros Hfs. by rewrite getPosts_new, Hfs.
  - intros d Hfs. by rewrite getPosts_new, Hfs.
  - intros entries Hfs Hex. rewrite getPosts_new, Hfs.
    unfold convertToMetadataObject. by rewrite (forEach_push_no_tags directory entries [] Hex).
Qed.

(** X13. What sorted retrieval on a new index returns: the index is
    initialized and stores the returned array, which holds the handles of
    the entries of the metadata document, each exactly once, and the path of
    each is the directory, a slash and the id. *)
Theorem getPostsSorted_new_index (attr : string) (reverse : bool)
    (file directory : string) (h : store) (l : loc) (σ : state) :
  getPostsSorted fs attr reverse (new file directory h) = (Ok l, σ) →
  ∃ entries a s,
    fs !! (directory +:+ file) = Some (MetaDoc entries) ∧
    reflects directory entries a ∧
    initialized (this σ) = true ∧
    posts (this σ) = Arr l ∧ arrays σ !! l = Some s ∧
    s ≡ₚ a ∧ length s = length entries ∧
    Forall (path_joined directory) s.
Proof.
  unfold getPostsSorted, mbind, M_bind at 1. rewrite getPosts_new.
  destruct (fs !! (directory +:+ file)) as [[entries|d]|]; try done.
  destruct (convertToMetadataObject directory entries) as [a|] eqn:Hc; [|done].
  unfold sort_in_place, mbind, M_bind, read, write. cbn [arrays this].
  rewrite list_lookup_middle by done.
  intros [= <- <-]. cbn [arrays this initialized posts].
  apply convert_reflects in Hc.
  exists entries, a, (engine_sort (postSorter "created" reverse) a).
  split_and!; try done.
  - apply list_lookup_insert_eq. rewrite length_app. simpl. lia.
  - apply engine_sort_perm.
  - rewrite engine_sort_length. by eapply reflects_length.
  - rewrite engine_sort_perm. by eapply reflects_path_joined.
Qed.

End IndexMore.

Section SortedMore.
Context `{Platform} (fs : files).
Import BlogPostMetaList.

(** X10. Sorted retrieval is idempotent on textual dates: after one sorted
    retrieval, a second one in the same direction (with any field name)
    returns the same array and leaves every array as it is. *)
Theorem getPostsSorted_twice (attr attr' : string) (reverse : bool) (σ : state)
    (l : loc) (a : list BlogPostMeta.t) :
  initialized (this σ) = true → posts (this σ) = Arr l → arrays σ !! l = Some a →
  Forall created_is_text a →
  ∃ σ1, getPostsSorted fs attr reverse σ = (Ok l, σ1) ∧
        getPostsSorted fs attr' reverse σ1 = (Ok l, σ1).
Proof.
  intros Hi Hp Ha Htext.
  rewrite (getPostsSorted_after_getPosts fs attr reverse σ l σ a
             (getPosts_initialized fs σ l Hi Hp) Ha).
  rewrite (engine_sort_created reverse a Htext).
  set (s := Array_sort (postSorter "created" reverse) a).
  set (σ1 := {| arrays := <[l := s]> (arrays σ); this := this σ |}).
  exists σ1. split; [reflexivity|].
  assert (arrays σ1 !! l = Some s) as Hs.
  { apply list_lookup_insert_eq. by eapply lookup_lt_Some. }
  assert (Forall created_is_text s) as Htext'.
  { unfold s. by rewrite Array_sort_perm. }
  rewrite (getPostsSorted_after_getPosts fs attr' reverse σ1 l σ1 s
             (getPosts_initialized fs σ1 l Hi Hp) Hs).
  rewrite (engine_sort_created reverse s Htext').
  rewrite (Array_sort_ordered_id _ s) by by apply Array_sort_created_ordered.
  by rewrite (list_insert_id _ _ _ Hs).
Qed.

(** X11. On an index whose handles all have textual dates, handles created
    on the same date keep the order they have in the index, in ascending
    and in descending retrieval alike: reversing the direction does not
    reverse the ties. *)
Theorem getPostsSorted_keeps_ties (attr : string) (reverse : bool) (σ : state)
    (l : loc) (a : list BlogPostMeta.t) :
  initialized (this σ) = true → posts (this σ) = Arr l → arrays σ !! l = Some a →
  Forall created_is_text a →
  ∃ σ' s, getPostsSorted fs attr reverse σ = (Ok l, σ') ∧ stored σ' = Some s ∧
          s = engine_sort (postSorter "created" reverse) a ∧
          ∀ d, List.filter (created_on d) s = List.filter (created_on d) a.
Proof.
  intros Hi Hp Ha Htext.
  rewrite (getPostsSorted_after_getPosts fs attr reverse σ l σ a
             (getPosts_initialized fs σ l Hi Hp) Ha).
  eexists _, _. split; [reflexivity|]. unfold stored. cbn [arrays this]. rewrite Hp.
  split; [apply list_lookup_insert_eq; by eapply lookup_lt_Some|].
  split; [reflexivity|].
  rewrite (engine_sort_created reverse a Htext).
  intros d. apply Array_sort_stable. intros x y Hx Hy.
  unfold created_on in Hx, Hy.
  destruct (BlogPostMeta.created x) as [| | | | |dx| |] eqn:Hcx; try done.
  destruct (BlogPostMeta.created y) as [| | | | |dy| |] eqn:Hcy; try done.
  apply String.eqb_eq in Hx as ->. apply String.eqb_eq in Hy as ->.
  assert (Z.le (postSorter "created" false x y) 0 ∧ Z.le (postSorter "created" true x y) 0)
    as [Hasc Hdesc].
  { rewrite postSorter_swap, (postSorter_text "created" x y d d),
      (postSorter_text "created" y x d d) by done.
    assert (String.compare d d = Eq) as -> by (by apply String_as_OT.cmp_eq). done. }
  by destruct reverse.
Qed.

End SortedMore.

Section NewestFirst.
Context `{Platform} (fs : files).
Import BlogPostMetaList.

(** The head of a descending sequence is a newest handle. *)
Lemma descending_head_newest (a s : list BlogPostMeta.t) (m : BlogPostMeta.t)
    (rest : list BlogPostMeta.t) :
  Forall created_is_text a → s ≡ₚ a → descending s → s = m :: rest →
  ∀ m', m' ∈ a → created_le m' m.
Proof.
  intros Htext Hperm Hdesc -> m' Hm'.
  rewrite <- Hperm in Hm', Htext.
  apply StronglySorted_inv in Hdesc as [_ Hrest].
  apply Forall_cons in Htext as [Hm _].
  apply elem_of_cons in Hm' as [->|Hin]; [by apply created_le_refl|].
  by eapply Forall_forall in Hrest.
Qed.

(** X12. Sorted retrieval with [reverse] true lists the newest first: on
    textual dates the stored and returned sequence is a permutation of the
    previous one in which no handle is older than a later one, so its first
    handle is a newest one. *)
Theorem getPostsSorted_reverse_newest_first (attr : string) (σ : state)
    (l : loc) (a : list BlogPostMeta.t) :
  initialized (this σ) = true → posts (this σ) = Arr l → arrays σ !! l = Some a →
  Forall created_is_text a →
  ∃ σ' s, getPostsSorted fs attr true σ = (Ok l, σ') ∧ stored σ' = Some s ∧
          s ≡ₚ a ∧ descending s ∧
          ∀ m rest, s = m :: rest → ∀ m', m' ∈ a → created_le m' m.
Proof.
  intros Hi Hp Ha Htext.
  rewrite (getPostsSorted_after_getPosts fs attr true σ l σ a
             (getPosts_initialized fs σ l Hi Hp) Ha).
  eexists _, _. split; [reflexivity|]. unfold stored. cbn [arrays this]. rewrite Hp.
  split; [apply list_lookup_insert_eq; by eapply lookup_lt_Some|].
  rewrite (engine_sort_created true a Htext).
  split; [apply Array_sort_perm|].
  split; [by apply Array_sort_created_descending|].
  intros m rest Hs.
  apply (descending_head_newest a (Array_sort (postSorter "created" true) a) m rest);
    [done|apply Array_sort_perm|by apply Array_sort_created_descending|done].
Qed.

(** Sorted retrieval on a new index, case by case. *)
Lemma getPostsSorted_new (attr : string) (reverse : bool) (file directory : string)
    (h : store) :
  getPostsSorted fs attr reverse (new file directory h) =
    match fs !! (directory +:+ file) with
    | None => (Throw FetchError, failed_index file directory h FetchError)
    | Some (PostDoc _) => (Throw TypeError, failed_index file directory h TypeError)
    | Some (MetaDoc entries) =>
        match convertToMetadataObject directory entries with
        | Throw e => (Throw e, failed_index file directory h e)
        | Ok a =>
            (Ok (length h),
             {| arrays := h ++ [engine_sort (postSorter "created" reverse) a];
                this := {| directory := directory; path := directory +:+ file;
                           initialized := true; posts := Arr (length h) |} |})
        end
    end.
Proof.
  unfold getPostsSorted, mbind, M_bind at 1. rewrite getPosts_new.
  destruct (fs !! (directory +:+ file)) as [[entries|d]|]; try done.
  destruct (convertToMetadataObject directory entries) as [a|] eqn:Hc; [|done].
  unfold sort_in_place, mbind, M_bind, read, write. cbn [arrays this].
  rewrite list_lookup_middle by done. cbn [arrays this]. do 2 f_equal.
  rewrite insert_app_r_alt by done. by rewrite Nat.sub_diag.
Qed.

End NewestFirst.

(** ** The latest post: the other cases *)

Lemma substring_whole (s : string) (k : nat) :
  String.length s ≤ k → String.substring 0 k s = s.
Proof.
  revert k. induction s as [|c s IH]; intros [|k] Hk; simpl in *; try done; try lia.
  f_equal. apply IH. lia.
Qed.

Section LatestMore.
Context `{Platform} (fs : files).

(** X14. Without a limit (a negative [maxChars]) the element receives the
    rendering of the first handle of the descending retrieval, whole and
    with no "Read More" link: the first handle of the array that the engine
    gives when it sorts the handles of the metadata document by date, in
    reverse.  When these handles all have textual dates, that handle is a
    newest one. *)
Theorem latestBlogPost_unlimited (h : store) (dom dom' : page)
    (domId directory file : string) (maxChars : Z) (contentOnly : bool)
    (entries : list MetaEntry) (a : list BlogPostMeta.t) :
  fs !! (directory +:+ file) = Some (MetaDoc entries) →
  BlogPostMetaList.convertToMetadataObject directory entries = Ok a →
  (maxChars < 0)%Z →
  latestBlogPost fs h dom domId directory file maxChars contentOnly = Ok dom' →
  ∃ l σ m others html,
    BlogPostMetaList.getPostsSorted fs "created" true (BlogPostMetaList.new file directory h)
      = (Ok l, σ) ∧
    BlogPostMetaList.arrays σ !! l = Some (m :: others) ∧
    m :: others = engine_sort (postSorter "created" true) a ∧
    m ∈ a ∧
    getPostHtml fs (Some m) contentOnly = Ok html ∧
    dom' = <[domId := html]> dom ∧
    (Forall created_is_text a → ∀ m', m' ∈ a → created_le m' m).
Proof.
  intros Hfs Hc Hn. unfold latestBlogPost.
  rewrite getPostsSorted_new, Hfs, Hc.
  unfold BlogPostMetaList.read. cbn [BlogPostMetaList.arrays].
  rewrite list_lookup_middle by done. unfold mbind, result_bind. cbn [fst].
  destruct (engine_sort (postSorter "created" true) a) as [|m others] eqn:Hs; [done|].
  change ((m :: others) !! 0) with (Some m).
  destruct (getPostHtml fs (Some m) contentOnly) as [html|] eqn:Hm; [|done].
  assert ((maxChars >=? 0)%Z = false) as -> by lia.
  rewrite append_empty_l. unfold set_innerHTML.
  destruct (dom !! domId); [|done]. intros [= <-].
  eexists _, _, m, others, html. split_and!; try done.
  - by apply list_lookup_middle.
  - rewrite <- (engine_sort_perm (postSorter "created" true) a), Hs. by left.
  - intros Htext. rewrite (engine_sort_created true a Htext) in Hs.
    apply (descending_head_newest a (m :: others) m others); try done.
    + rewrite <- Hs. apply Array_sort_perm.
    + rewrite <- Hs. by apply Array_sort_created_descending.
Qed.

(** X15. A rendering shorter than the limit is written whole, followed by
    the "Read More" link. *)
Theorem latestBlogPost_short_rendering (h : store) (dom : page)
    (domId directory file : string) (maxChars : Z) (contentOnly : bool)
    (l : loc) (σ : BlogPostMetaList.state) (m : BlogPostMeta.t)
    (others : list BlogPostMeta.t) (r old : string) :
  BlogPostMetaList.getPostsSorted fs "created" true (BlogPostMetaList.new file directory h)
    = (Ok l, σ) →
  BlogPostMetaList.arrays σ !! l = Some (m :: others) →
  getPostHtml fs (Some m) contentOnly = Ok r →
  dom !! domId = Some old →
  (Z.of_nat (String.length r) < maxChars)%Z →
  latestBlogPost fs h dom domId directory file maxChars contentOnly
  = Ok (<[domId := r +:+ read_more (BlogPostMeta.id m)]> dom).
Proof.
  intros Hsorted Hl Hhtml Hdom Hn.
  unfold latestBlogPost. rewrite Hsorted.
  unfold BlogPostMetaList.read. rewrite Hl.
  unfold mbind, result_bind. cbn [fst].
  change ((m :: others) !! 0) with (Some m). rewrite Hhtml.
  assert ((maxChars >=? 0)%Z = true) as -> by lia.
  rewrite append_empty_l.
  assert (Str.substr0 r maxChars = r) as ->.
  { unfold Str.substr0. destruct (Z.leb_spec maxChars 0); [lia|].
    apply substring_whole. lia. }
  assert ((Z.of_nat (String.length r) =? maxChars)%Z = false) as -> by lia.
  unfold set_innerHTML. by rewrite Hdom.
Qed.

(** X16. A rendering exactly as long as the limit is not written whole: it
    is cut back to its last space like a longer one, so it loses its last
    word (and everything, when it has no space), before the link is
    appended. *)
Theorem latestBlogPost_exact_length (h : store) (dom : page)
    (domId directory file : string) (maxChars : Z) (contentOnly : bool)
    (l : loc) (σ : BlogPostMetaList.state) (m : BlogPostMeta.t)
    (others : list BlogPostMeta.t) (r old : string) :
  BlogPostMetaList.getPostsSorted fs "created" true (BlogPostMetaList.new file directory h)
    = (Ok l, σ) →
  BlogPostMetaList.arrays σ !! l = Some (m :: others) →
  getPostHtml fs (Some m) contentOnly = Ok r →
  dom !! domId = Some old →
  Z.of_nat (String.length r) = maxChars →
  ∃ cut,
    latestBlogPost fs h dom domId directory file maxChars contentOnly
      = Ok (<[domId := cut +:+ read_more (BlogPostMeta.id m)]> dom) ∧
    ((∃ w, r = cut +:+ String Str.space w ∧ no_space w = true) ∨
     (cut = "" ∧ no_space r = true)).
Proof.
  intros Hsorted Hl Hhtml Hdom Hn.
  assert (Str.substr0 r maxChars = r) as Hwhole.
  { unfold Str.substr0. destruct (Z.leb_spec maxChars 0).
    - destruct r; [done|]. simpl in Hn. lia.
    - apply substring_whole. lia. }
  assert (∃ cut, Str.substr0 r (Z.min (Z.of_nat (String.length r)) (Str.lastIndexOf_space r))
                 = cut ∧
                 ((∃ w, r = cut +:+ String Str.space w ∧ no_space w = true) ∨
                  (cut = "" ∧ no_space r = true))) as (cut & Hcut & Hshape).
  { destruct (lastIndexOf_space_spec r) as [[Hns ->]|(a & w & Hr & Hw & ->)].
    - exists "". split; [|by right].
      assert (Z.min (Z.of_nat (String.length r)) (-1) = (-1)%Z) as -> by lia. done.
    - exists a. split; [|left; by exists w].
      rewrite Z.min_r by (rewrite Hr, length_append; lia).
      unfold Str.substr0. destruct (Z.leb_spec (Z.of_nat (String.length a)) 0) as [H0|H0].
      + destruct a; [done|]. simpl in H0. lia.
      + rewrite Nat2Z.id. rewrite Hr at 1. apply substring_of_append. }
  exists cut. split; [|done].
  unfold latestBlogPost. rewrite Hsorted.
  unfold BlogPostMetaList.read. rewrite Hl.
  unfold mbind, result_bind. cbn [fst].
  change ((m :: others) !! 0) with (Some m). rewrite Hhtml.
  assert ((maxChars >=? 0)%Z = true) as -> by lia.
  rewrite append_empty_l, Hwhole.
  assert ((Z.of_nat (String.length r) =? maxChars)%Z = true) as -> by lia.
  rewrite Hcut. unfold set_innerHTML. by rewrite Hdom.
Qed.

(** X17. On a metadata document with an empty [posts] array there is no
    latest post: [latestBlogPost] throws a type error and writes nothing,
    while [getBlogPosts] completes and writes the promise text alone. *)
Theorem empty_index_pages (h : store) (dom : page) (domId directory file : string)
    (maxChars maxPosts : Z) (contentOnly reverse : bool) (sortBy old : string) :
  fs !! (directory +:+ file) = Some (MetaDoc []) →
  dom !! domId = Some old →
  latestBlogPost fs h dom domId directory file maxChars contentOnly = Throw TypeError ∧
  getBlogPosts fs h dom domId directory file maxPosts sortBy reverse
    = Ok (<[domId := "[object Promise]"]> dom).
Proof.
  intros Hfs Hdom. split.
  - unfold latestBlogPost. rewrite getPostsSorted_new, Hfs. simpl.
    unfold BlogPostMetaList.read. cbn [BlogPostMetaList.arrays].
    by rewrite list_lookup_middle, engine_sort_nil.
  - unfold getBlogPosts. rewrite getPostsSorted_new, Hfs. simpl.
    unfold BlogPostMetaList.read. cbn [BlogPostMetaList.arrays].
    rewrite list_lookup_middle, engine_sort_nil by done. simpl.
    unfold set_innerHTML. by rewrite Hdom.
Qed.

End LatestMore.

(** ** Listing: when it completes and when it fails *)

Section ListingMore.
Context `{Platform} (fs : files).

Lemma for_in_postList_total postList content :
  Forall (λ m, ∃ html, getPostHtml fs (Some m) false = Ok html) postList →
  ∃ r, for_in_postList fs postList content = Ok r.
Proof.
  intros Hall. revert content. induction Hall as [|m postList [html Hm] _ IH]; intros content.
  - by exists content.
  - change (for_in_postList fs (m :: postList) content)
      with (html ← getPostHtml fs (Some m) false;
            for_in_postList fs postList (plus_assign content html)).
    rewrite Hm. apply IH.
Qed.

Lemma for_in_postList_fails postList content :
  Exists (λ m, ∃ e, getPostHtml fs (Some m) false = Throw e) postList →
  ∃ e, for_in_postList fs postList content = Throw e.
Proof.
  intros Hex. revert content. induction postList as [|m postList IH]; intros content.
  - by apply Exists_nil in Hex.
  - change (for_in_postList fs (m :: postList) content)
      with (html ← getPostHtml fs (Some m) false;
            for_in_postList fs postList (plus_assign content html)).
    destruct (getPostHtml fs (Some m) false) as [html|e] eqn:Hm.
    + apply Exists_cons in Hex as [[e He]|Hex]; [congruence|]. by apply IH.
    + by exists e.
Qed.

(** A handle renders when its file is a post document with tags and a
    content. *)
Lemma getPostHtml_succeeds (m : BlogPostMeta.t) (contentOnly : bool) (d : PostData) :
  fs !! BlogPostMeta.path m = Some (PostDoc d) →
  is_Some (pd_tags d) → is_Some (pd_content d) →
  ∃ html, getPostHtml fs (Some m) contentOnly = Ok html.
Proof.
  intros Hfs [t Ht] [c Hc].
  unfold getPostHtml, BlogPostMeta.getPost, getJsonData, BlogPost.constructor, split_tags,
    getBodyHtml, mbind, result_bind.
  rewrite Hfs, Ht. cbn [BlogPost.content]. rewrite Hc. destruct contentOnly; by eexists.
Qed.

Lemma reflects_render (directory : string) (entries : list MetaEntry)
    (a : list BlogPostMeta.t) :
  reflects directory entries a →
  Forall (λ x, is_Some (me_tags x) ∧
               ∃ d, fs !! (directory +:+ "/" +:+ me_path x) = Some (PostDoc d) ∧
                    is_Some (pd_tags d) ∧ is_Some (pd_content d)) entries →
  Forall (λ m, ∃ html, getPostHtml fs (Some m) false = Ok html) a.
Proof.
  induction 1 as [|x m entries a Hm _ IH]; intros Hentries; [constructor|].
  apply Forall_cons in Hentries as [[_ (d & Hd & Ht & Hc)] Hentries].
  constructor; [|by apply IH].
  apply (getPostHtml_succeeds m false d); [|done|done].
  unfold BlogPostMeta.constructor, split_tags, mbind, result_bind in Hm.
  destruct (me_tags x); [|done]. by injection Hm as <-.
Qed.

(** X18. When the metadata document is there, every entry has its tags and
    names a post document with tags and a content, and the element exists,
    the listing completes, whatever [maxPosts] and [sortBy] are: the element
    receives the promise text followed by the rendering of every handle of
    the metadata document, one per entry, in the order in which the engine
    sorts the handles by date. *)
Theorem getBlogPosts_lists_every_entry (h : store) (dom : page)
    (domId directory file : string) (maxPosts : Z) (sortBy : string) (reverse : bool)
    (entries : list MetaEntry) :
  fs !! (directory +:+ file) = Some (MetaDoc entries) →
  Forall (λ x, is_Some (me_tags x) ∧
               ∃ d, fs !! (directory +:+ "/" +:+ me_path x) = Some (PostDoc d) ∧
                    is_Some (pd_tags d) ∧ is_Some (pd_content d)) entries →
  is_Some (dom !! domId) →
  ∃ a htmls,
    reflects directory entries a ∧
    Forall2 (λ m html, getPostHtml fs (Some m) false = Ok html)
      (engine_sort (postSorter "created" reverse) a) htmls ∧
    getBlogPosts fs h dom domId directory file maxPosts sortBy reverse
      = Ok (<[domId := "[object Promise]" +:+ concat_html htmls]> dom) ∧
    length htmls = length entries.
Proof.
  intros Hfs Hentries [old Hdom].
  destruct (forEach_push_total directory entries []) as [a Ha].
  { eapply Forall_impl; [exact Hentries|]. by intros x [Hx _]. }
  rewrite app_nil_l in Ha.
  assert (reflects directory entries a) as Hrefl by by apply convert_reflects.
  assert (Forall (λ m, ∃ html, getPostHtml fs (Some m) false = Ok html) a) as Hrender.
  { by eapply reflects_render. }
  unfold getBlogPosts. rewrite getPostsSorted_new, Hfs.
  unfold BlogPostMetaList.convertToMetadataObject. rewrite Ha.
  unfold BlogPostMetaList.read. cbn [BlogPostMetaList.arrays].
  rewrite list_lookup_middle by done. unfold mbind, result_bind. cbn [fst].
  destruct (for_in_postList_total (engine_sort (postSorter "created" reverse) a)
              (CPromise getPostFromUrl)) as [r Hr].
  { by rewrite engine_sort_perm. }
  rewrite Hr. apply for_in_postList_appends in Hr as (htmls & Hall & ->).
  exists a, htmls. unfold set_innerHTML. rewrite Hdom. split_and!; try done.
  apply Forall2_length in Hall. rewrite <- Hall, engine_sort_length.
  by eapply reflects_length.
Qed.

(** X19. One post that cannot be rendered makes the whole listing fail:
    when the file of some handle of the index is missing, [getBlogPosts]
    throws and nothing is written, not even the posts that did render. *)
Theorem getBlogPosts_fails_on_missing_post (h : store) (dom : page)
    (domId directory file : string) (maxPosts : Z) (sortBy : string) (reverse : bool)
    (entries : list MetaEntry) (a : list BlogPostMeta.t) :
  fs !! (directory +:+ file) = Some (MetaDoc entries) →
  BlogPostMetaList.convertToMetadataObject directory entries = Ok a →
  Exists (λ m, fs !! BlogPostMeta.path m = None) a →
  ∃ e, getBlogPosts fs h dom domId directory file maxPosts sortBy reverse = Throw e.
Proof.
  intros Hfs Ha Hmissing.
  unfold getBlogPosts. rewrite getPostsSorted_new, Hfs, Ha.
  unfold BlogPostMetaList.read. cbn [BlogPostMetaList.arrays].
  rewrite list_lookup_middle by done. unfold mbind, result_bind. cbn [fst].
  destruct (for_in_postList_fails (engine_sort (postSorter "created" reverse) a)
              (CPromise getPostFromUrl)) as [e He].
  { rewrite engine_sort_perm. eapply Exists_impl; [exact Hmissing|].
    intros m Hm. exists FetchError.
    unfold getPostHtml, BlogPostMeta.getPost, getJsonData, mbind, result_bind.
    by rewrite Hm. }
  rewrite He. by exists e.
Qed.

End ListingMore.

(** ** The link, for ordinary ids *)

Lemma replace_first_cons pat rep c s :
  Str.replace_first pat rep (String c s) =
    if String.prefix pat (String c s)
    then rep +:+ String.substring (String.length pat) (String.length (String c s)) (String c s)
    else String c (Str.replace_first pat rep s).
Proof. reflexivity. Qed.

Lemma count_sub_suffix pat b : 1 ≤ count_sub pat (b +:+ pat).
Proof.
  induction b as [|c b IH].
  - rewrite append_empty_l.
    assert (String.prefix pat pat = true) as Hp.
    { rewrite <- (append_empty_r pat) at 2. apply prefix_append. }
    destruct pat; simpl in *; [lia|]. rewrite Hp. lia.
  - rewrite append_cons, count_sub_cons. lia.
Qed.

Lemma substring_skip (a b : string) (k : nat) :
  String.substring (String.length a) k (a +:+ b) = String.substring 0 k b.
Proof. induction a as [|c a IH]; [done|]. rewrite append_cons. simpl. apply IH. Qed.

Lemma replace_first_only_suffix (base : string) :
  count_sub ".json" (base +:+ ".json") = 1 →
  Str.replace_first ".json" "" (base +:+ ".json") = base.
Proof.
  induction base as [|c base IH]; [done|].
  rewrite append_cons, count_sub_cons, replace_first_cons.
  pose proof (count_sub_suffix ".json" base) as Hpos.
  destruct (String.prefix ".json" (String c (base +:+ ".json"))); [lia|].
  intros Hcount. rewrite IH; [done|lia].
Qed.

(** X20. For an id that ends in ".json" and has no other ".json" in it, the
    "Read More" link names the id without that suffix. *)
Theorem read_more_strips_suffix (base : string) :
  count_sub ".json" (base +:+ ".json") = 1 →
  strip_json_suffix (base +:+ ".json") = base ∧
  read_more (base +:+ ".json") = link_to base.
Proof.
  intros Hcount. split.
  - unfold strip_json_suffix. rewrite length_append. simpl String.length.
    replace (String.length base + 5 - 5) with (String.length base) by lia.
    rewrite substring_skip. simpl. apply substring_of_append.
  - unfold read_more, link_to. by rewrite replace_first_only_suffix.
Qed.

Lemma read_more_strips_suffix_witness :
  read_more "post.v2.json" = link_to "post.v2".
Proof.
  apply (read_more_strips_suffix "post.v2"). vm_compute. reflexivity.
Defined.

(** ** Timestamps of a post with an invalid date *)

(** X21. When the created or the updated date of a post is invalid, the
    "Updated on" paragraph is always emitted, also when both dates are
    invalid in the same way: on text without markup the output has two
    timestamp paragraphs. *)
Theorem getTimestampHtml_invalid_date `{Platform} (post : BlogPost.t) :
  BlogPost.created post = None ∨ BlogPost.updated post = None →
  getTimestampHtml post =
    (timestamp_open +:+ "Written by " +:+ BlogPost.author post +:+ " on " +:+
     toLocaleString (BlogPost.created post) +:+ "</p>") +:+
    (timestamp_open +:+ "Updated on " +:+ toLocaleString (BlogPost.updated post) +:+ "</p>") ∧
  (no_lt (BlogPost.author post) = true →
   no_lt (toLocaleString (BlogPost.created post)) = true →
   no_lt (toLocaleString (BlogPost.updated post)) = true →
   count_sub timestamp_open (getTimestampHtml post) = 2).
Proof.
  intros Hinvalid.
  assert (BlogPost.strict_eq (BlogPost.time_value (BlogPost.created post))
            (BlogPost.time_value (BlogPost.updated post)) = false) as Hne.
  { destruct Hinvalid as [-> | ->]; [done|]. by destruct (BlogPost.created post). }
  assert (getTimestampHtml post =
    (timestamp_open +:+ "Written by " +:+ BlogPost.author post +:+ " on " +:+
     toLocaleString (BlogPost.created post) +:+ "</p>") +:+
    (timestamp_open +:+ "Updated on " +:+ toLocaleString (BlogPost.updated post) +:+ "</p>"))
    as Hout.
  { unfold getTimestampHtml. by rewrite Hne. }
  split; [exact Hout|].
  intros Hauthor Hfc Hfu. rewrite Hout.
  rewrite !append_assoc, timestamp_open_cons.
  rewrite count_sub_tag by reflexivity.
  rewrite (count_sub_text _ "Written by ") by reflexivity.
  rewrite (count_sub_text _ (BlogPost.author post)) by done.
  rewrite (count_sub_text _ " on ") by reflexivity.
  rewrite (count_sub_text _ (toLocaleString (BlogPost.created post))) by done.
  rewrite count_sub_close.
  rewrite count_sub_tag by reflexivity.
  rewrite (count_sub_text _ "Updated on ") by reflexivity.
  rewrite (count_sub_text _ (toLocaleString (BlogPost.updated post))) by done.
  rewrite <- (append_empty_r "</p>"), count_sub_close. reflexivity.
Qed.

(** ** The latest post: a rendering longer than the limit *)

(** X22. A rendering longer than the limit is cut to at most [maxChars]
    characters, the cut falling just before the last space within the
    limit, so that only the unfinished word and what follows are dropped
    (nothing is kept when there is no space within the limit); the link to
    the id of the first handle, with its first ".json" removed, follows. *)
Theorem latestBlogPost_cuts_long_rendering `{Platform} (fs : files) (h : store) (dom : page)
    (domId directory file : string) (maxChars : Z) (contentOnly : bool)
    (l : loc) (σ : BlogPostMetaList.state) (m : BlogPostMeta.t)
    (others : list BlogPostMeta.t) (r old : string) :
  BlogPostMetaList.getPostsSorted fs "created" true (BlogPostMetaList.new file directory h)
    = (Ok l, σ) →
  BlogPostMetaList.arrays σ !! l = Some (m :: others) →
  getPostHtml fs (Some m) contentOnly = Ok r →
  dom !! domId = Some old →
  (0 <= maxChars < Z.of_nat (String.length r))%Z →
  ∃ cut,
    latestBlogPost fs h dom domId directory file maxChars contentOnly
      = Ok (<[domId := cut +:+ read_more (BlogPostMeta.id m)]> dom) ∧
    (Z.of_nat (String.length cut) <= maxChars)%Z ∧
    ((∃ w rest, r = cut +:+ String Str.space w +:+ rest ∧ no_space w = true ∧
                (Z.of_nat (String.length cut) + 1 + Z.of_nat (String.length w) = maxChars)%Z) ∨
     (cut = "" ∧ no_space (Str.substr0 r maxChars) = true)).
Proof.
  intros Hsorted Hl Hhtml Hdom Hn.
  exact (latestBlogPost_truncates fs h dom domId directory file maxChars contentOnly
           l σ m others r old Hsorted Hl Hhtml Hdom Hn).
Qed.

(** ** Closed instances of the further properties *)

Lemma notes_index_reached :
  BlogPostMetaList.getPostsSorted (H := Utc.platform) Sample.notes_fs "created" true
    (BlogPostMetaList.new "index.json" "notes/" [])
  = (Ok 0, Cases.notes_index).
Proof. vm_compute. reflexivity. Qed.

Lemma notes_html_rendered :
  getPostHtml (H := Utc.platform) Sample.notes_fs (Some Cases.notes_handle) true
  = Ok Cases.notes_html.
Proof. vm_compute. reflexivity. Qed.

Lemma latestBlogPost_cuts_long_rendering_witness :
  ∃ cut,
    latestBlogPost (H := Utc.platform) Sample.notes_fs [] Sample.dom "blog" "notes/" "index.json"
      145 true
    = Ok (<["blog" := cut +:+ read_more "notes.json.v2.json"]> Sample.dom) ∧
    (Z.of_nat (String.length cut) <= 145)%Z.
Proof.
  destruct (latestBlogPost_cuts_long_rendering (H := Utc.platform) Sample.notes_fs []
              Sample.dom "blog" "notes/" "index.json" 145 true 0 Cases.notes_index
              Cases.notes_handle [] Cases.notes_html "old content")
    as (cut & Hrun & Hlen & _).
  - exact notes_index_reached.
  - reflexivity.
  - exact notes_html_rendered.
  - vm_compute. reflexivity.
  - vm_compute. split; [intros [=]|reflexivity].
  - exists cut. split; [exact Hrun|exact Hlen].
Defined.

Lemma latestBlogPost_short_rendering_witness :
  latestBlogPost (H := Utc.platform) Sample.notes_fs [] Sample.dom "blog" "notes/" "index.json"
    1000 true
  = Ok (<["blog" := Cases.notes_html +:+ read_more "notes.json.v2.json"]> Sample.dom).
Proof.
  apply (latestBlogPost_short_rendering (H := Utc.platform) Sample.notes_fs []
           Sample.dom "blog" "notes/" "index.json" 1000 true 0 Cases.notes_index
           Cases.notes_handle [] Cases.notes_html "old content").
  - exact notes_index_reached.
  - reflexivity.
  - exact notes_html_rendered.
  - vm_compute. reflexivity.
  - vm_compute. reflexivity.
Defined.

Lemma latestBlogPost_exact_length_witness :
  ∃ cut,
    latestBlogPost (H := Utc.platform) Sample.notes_fs [] Sample.dom "blog" "notes/" "index.json"
      175 true
    = Ok (<["blog" := cut +:+ read_more "notes.json.v2.json"]> Sample.dom) ∧
    ((∃ w, Cases.notes_html = cut +:+ String Str.space w ∧ no_space w = true) ∨
     (cut = "" ∧ no_space Cases.notes_html = true)).
Proof.
  apply (latestBlogPost_exact_length (H := Utc.platform) Sample.notes_fs []
           Sample.dom "blog" "notes/" "index.json" 175 true 0 Cases.notes_index
           Cases.notes_handle [] Cases.notes_html "old content").
  - exact notes_index_reached.
  - reflexivity.
  - exact notes_html_rendered.
  - vm_compute. reflexivity.
  - vm_compute. reflexivity.
Defined.

Lemma equals_invalid_date_witness :
  BlogPost.equals (H := Utc.platform) Cases.undated (BlogPost.ArgObj (BlogPost.as_object Cases.undated))
  = Ok false.
Proof.
  apply (equals_invalid_date (H := Utc.platform) Cases.undated). left. reflexivity.
Defined.

Lemma getBodyHtml_splits_at_newline_witness :
  getBodyHtml (Cases.note ("L1" +:+ String Str.newline "L2")) = Ok "<p>L1</p><p>L2</p>".
Proof.
  destruct (getBodyHtml_splits_at_newline (Cases.note ("L1" +:+ String Str.newline "L2"))
              (Cases.note "L1") (Cases.note "L2") "L1" "L2" eq_refl eq_refl eq_refl)
    as (ha & hb & Ha & Hb & Hp).
  cbv in Ha, Hb. injection Ha as <-. injection Hb as <-. rewrite Hp. reflexivity.
Defined.

Lemma getBodyHtml_no_newline_witness :
  getBodyHtml (Cases.note "L1") = Ok "<p>L1</p>".
Proof.
  destruct (getBodyHtml_no_newline (Cases.note "L1")) as [Hsome _].
  destruct (Hsome "L1" eq_refl) as (html & Hrun & _ & Hplain).
  rewrite Hrun, Hplain; reflexivity.
Defined.

Lemma getPosts_cached_witness :
  BlogPostMetaList.getPosts ∅ Sample.index = (Ok (Some 0), Sample.index).
Proof.
  apply (getPosts_cached Sample.fs "testdir.json" "sample/" [] 0 Sample.index).
  vm_compute. reflexivity.
Defined.

Lemma getPosts_failure_witness :
  (BlogPostMetaList.getPosts ∅ (BlogPostMetaList.new "index.json" "empty/" [])
   = (Throw FetchError, failed_index "index.json" "empty/" [] FetchError) ∧
   BlogPostMetaList.getPosts Cases.empty_fs (failed_index "index.json" "empty/" [] FetchError)
   = (Throw FetchError, failed_index "index.json" "empty/" [] FetchError)) ∧
  BlogPostMetaList.getPosts Cases.untagged_fs (BlogPostMetaList.new "index.json" "notes/" [])
  = (Throw TypeError, failed_index "index.json" "notes/" [] TypeError).
Proof.
  split.
  - pose proof (getPosts_failure (H := Utc.platform) (∅ : files) "index.json" "empty/" [])
      as (Hfail & Hmissing & _).
    assert (BlogPostMetaList.getPosts (∅ : files) (BlogPostMetaList.new "index.json" "empty/" [])
            = (Throw FetchError, failed_index "index.json" "empty/" [] FetchError)) as Hrun.
    { apply Hmissing. reflexivity. }
    split; [exact Hrun|].
    destruct (Hfail FetchError _ Hrun) as (_ & _ & _ & _ & _ & _ & Hlater).
    apply Hlater.
  - pose proof (getPosts_failure (H := Utc.platform) Cases.untagged_fs "index.json" "notes/" [])
      as (_ & _ & _ & Huntagged).
    apply (Huntagged [Sample.notes_entry; Cases.untagged_entry]).
    + vm_compute. reflexivity.
    + apply Exists_cons_tl, Exists_cons_hd. reflexivity.
Defined.

Lemma getPostsSorted_new_index_witness :
  ∃ s, BlogPostMetaList.arrays Cases.notes_index !! 0 = Some s ∧
       Forall (path_joined "notes/") s.
Proof.
  destruct (getPostsSorted_new_index (H := Utc.platform) Sample.notes_fs "created" true
              "index.json" "notes/" [] 0 Cases.notes_index notes_index_reached)
    as (entries & a & s & _ & _ & _ & _ & Hs & _ & _ & Hpaths).
  exists s. split; [exact Hs|exact Hpaths].
Defined.

Lemma sample_dates_textual : Forall created_is_text [Sample.h20; Sample.h22; Sample.h21].
Proof. repeat constructor; eexists; reflexivity. Qed.

Lemma getPostsSorted_twice_witness :
  ∃ σ1, BlogPostMetaList.getPostsSorted (H := Utc.platform) Sample.fs "created" true Sample.index
          = (Ok 0, σ1) ∧
        BlogPostMetaList.getPostsSorted (H := Utc.platform) Sample.fs "title" true σ1
          = (Ok 0, σ1).
Proof.
  apply (getPostsSorted_twice (H := Utc.platform) Sample.fs "created" "title" true
           Sample.index 0 [Sample.h20; Sample.h22; Sample.h21]);
    [reflexivity|reflexivity|reflexivity|exact sample_dates_textual].
Defined.

Lemma getPostsSorted_keeps_ties_witness :
  ∃ σ' s, BlogPostMetaList.getPostsSorted (H := Utc.platform) (∅ : files) "created" true
            (Cases.shelf_of Cases.twins) = (Ok 0, σ') ∧
          stored σ' = Some s ∧
          s = [Cases.titled "A" "2022-01-21"; Cases.titled "C" "2022-01-21";
               Cases.titled "B" "2022-01-20"] ∧
          List.filter (created_on "2022-01-21") s
          = [Cases.titled "A" "2022-01-21"; Cases.titled "C" "2022-01-21"].
Proof.
  destruct (getPostsSorted_keeps_ties (H := Utc.platform) (∅ : files) "created" true
              (Cases.shelf_of Cases.twins) 0 Cases.twins eq_refl eq_refl eq_refl)
    as (σ' & s & Hrun & Hs & Hsort & Hties).
  - repeat constructor; eexists; reflexivity.
  - exists σ', s. split_and!; [exact Hrun|exact Hs|exact Hsort|].
    rewrite Hties. reflexivity.
Defined.

Lemma getPostsSorted_reverse_newest_first_witness :
  ∃ σ' s, BlogPostMetaList.getPostsSorted (H := Utc.platform) Sample.fs "created" true
            Sample.index = (Ok 0, σ') ∧
          stored σ' = Some s ∧ descending s.
Proof.
  destruct (getPostsSorted_reverse_newest_first (H := Utc.platform) Sample.fs "created"
              Sample.index 0 [Sample.h20; Sample.h22; Sample.h21] eq_refl eq_refl eq_refl
              sample_dates_textual)
    as (σ' & s & Hrun & Hs & _ & Hdesc & _).
  exists σ', s. split_and!; [exact Hrun|exact Hs|exact Hdesc].
Defined.

Lemma latestBlogPost_unlimited_witness :
  ∃ m others html,
    m :: others = [Sample.h22; Sample.h21; Sample.h20] ∧
    getPostHtml (H := Utc.platform) Sample.fs (Some m) false = Ok html ∧
    <["blog" := Sample.article "2" "January 22, 2022" "January 23, 2022"]> Sample.dom
    = <["blog" := html]> Sample.dom ∧
    (∀ m', m' ∈ [Sample.h20; Sample.h22; Sample.h21] → created_le m' m).
Proof.
  destruct (latestBlogPost_unlimited (H := Utc.platform) Sample.fs [] Sample.dom
              (<["blog" := Sample.article "2" "January 22, 2022" "January 23, 2022"]> Sample.dom)
              "blog" "sample/" "testdir.json" (-1) false
              [Sample.entry "0" "2022-01-20" "2022-01-21";
               Sample.entry "2" "2022-01-22" "2022-01-23";
               Sample.entry "1" "2022-01-21" "2022-01-22"]
              [Sample.h20; Sample.h22; Sample.h21])
    as (l & σ & m & others & html & _ & _ & Hsort & _ & Hhtml & Hdom & Hnewest).
  - vm_compute. reflexivity.
  - reflexivity.
  - lia.
  - vm_compute. reflexivity.
  - exists m, others, html. split_and!; [exact Hsort|exact Hhtml|exact Hdom|].
    apply Hnewest. repeat constructor; eexists; reflexivity.
Defined.

Lemma empty_index_pages_witness :
  latestBlogPost (H := Utc.platform) Cases.empty_fs [] Sample.dom "blog" "empty/" "index.json"
    (-1) false = Throw TypeError ∧
  getBlogPosts (H := Utc.platform) Cases.empty_fs [] Sample.dom "blog" "empty/" "index.json"
    5 "created" true = Ok (<["blog" := "[object Promise]"]> Sample.dom).
Proof.
  apply (empty_index_pages (H := Utc.platform) Cases.empty_fs [] Sample.dom "blog" "empty/"
           "index.json" (-1) 5 false true "created" "old content").
  - vm_compute. reflexivity.
  - vm_compute. reflexivity.
Defined.

Lemma getBlogPosts_lists_every_entry_witness :
  ∃ a htmls,
    reflects "sample/" [Sample.entry "0" "2022-01-20" "2022-01-21";
                        Sample.entry "2" "2022-01-22" "2022-01-23";
                        Sample.entry "1" "2022-01-21" "2022-01-22"] a ∧
    Forall2 (λ m html, getPostHtml (H := Utc.platform) Sample.fs (Some m) false = Ok html)
      (engine_sort (Platform := Utc.platform)
         (postSorter (H := Utc.platform) "created" false) a) htmls ∧
    getBlogPosts (H := Utc.platform) Sample.fs [] Sample.dom "blog" "sample/" "testdir.json"
      1 "title" false
    = Ok (<["blog" := "[object Promise]" +:+ concat_html htmls]> Sample.dom) ∧
    length htmls = 3.
Proof.
  apply (getBlogPosts_lists_every_entry (H := Utc.platform) Sample.fs [] Sample.dom "blog"
           "sample/" "testdir.json" 1 "title" false
           [Sample.entry "0" "2022-01-20" "2022-01-21";
            Sample.entry "2" "2022-01-22" "2022-01-23";
            Sample.entry "1" "2022-01-21" "2022-01-22"]).
  - vm_compute. reflexivity.
  - repeat (apply List.Forall_cons;
            [split; [eexists; reflexivity|];
             eexists; split_and!;
               [vm_compute; reflexivity|eexists; reflexivity|eexists; reflexivity]|]).
    apply List.Forall_nil.
  - eexists. vm_compute. reflexivity.
Defined.

Lemma getBlogPosts_fails_on_missing_post_witness :
  ∃ e, getBlogPosts (H := Utc.platform) Cases.broken_fs [] Sample.dom "blog" "notes/"
         "index.json" 5 "created" true = Throw e.
Proof.
  apply (getBlogPosts_fails_on_missing_post (H := Utc.platform) Cases.broken_fs [] Sample.dom
           "blog" "notes/" "index.json" 5 "created" true
           [Sample.notes_entry] [Cases.notes_handle]).
  - vm_compute. reflexivity.
  - reflexivity.
  - constructor. vm_compute. reflexivity.
Defined.

Lemma getTimestampHtml_invalid_date_witness :
  count_sub timestamp_open (getTimestampHtml (H := Utc.platform) Cases.undated) = 2.
Proof.
  destruct (getTimestampHtml_invalid_date (H := Utc.platform) Cases.undated) as [_ Hcount].
  - left. reflexivity.
  - apply Hcount; vm_compute; reflexivity.
Defined.
